(** * class_concepts.py: a shallow embedding and its verified properties

    The script is a sequence of small teaching classes followed by a
    demonstration routine [main].  Each class is embedded as a module of
    Rocq definitions carrying the names of the Python source.  Values that
    never escape a method are plain Rocq values; everything the script
    shares between calls (the console, the module namespace and its class
    objects, the instance cache of the [singleton] decorator, the file
    system) lives in one record [World] that is threaded through a small
    state-and-exception monad.  A [Session] adds to it the class variables
    of [Bank] and [Book] and the readings of the clock; [main] and the
    scripts of all the vignettes run in sessions. *)

From Stdlib Require Import ZArith QArith String List Lia.
From stdpp Require Import gmap strings list fin_maps pretty.

Open Scope string_scope.
Open Scope Z_scope.

(** ** Python values and their [str] *)

Inductive value :=
| VNone
| VBool (b : bool)
| VInt (n : Z)
| VStr (s : string).

#[global] Instance value_eq_dec : EqDecision value.
Proof. solve_decision. Defined.

(** [str(v)], which is also what an f-string field [{v}] prints for these
    types. *)
Definition str (v : value) : string :=
  match v with
  | VNone => "None"
  | VBool true => "True"
  | VBool false => "False"
  | VInt n => pretty n
  | VStr s => s
  end.

(** The newline character of the ["\n"] escapes. *)
Definition nl : string := String (Ascii.ascii_of_nat 10) EmptyString.

(** Python's [sub in s] on strings. *)
Fixpoint str_contains (sub s : string) : bool :=
  String.prefix sub s ||
  match s with
  | EmptyString => false
  | String _ s' => str_contains sub s'
  end.

(** ** Exceptions and outcomes *)

Module InvalidAgeError.
(** [class InvalidAgeError(Exception)]: the two attributes set by
    [__init__]. *)
Record t := mk { age : Z; message : string }.

(** [def __init__(self, age, message="Age must be 18 or older")] *)
Definition default_message : string := "Age must be 18 or older".

Definition __init__ (age : Z) (message : option string) : t :=
  {| age := age; message := default default_message message |}.

(** [def __str__(self): return f"{self.message} (got {self.age})"] *)
Definition __str__ (self : t) : string :=
  message self +:+ " (got " +:+ pretty (age self) +:+ ")".
End InvalidAgeError.

Inductive exn :=
| AttributeError (owner attr : string)
| TypeError
| ValueError (msg : string)
| NameError (name : string)
| KeyError (key : string)
| StopIteration
| InvalidAge (e : InvalidAgeError.t).

Inductive outcome (A : Type) :=
| Return (a : A)
| Raise (e : exn).
Arguments Return {A} a.
Arguments Raise {A} e.

Definition raises {A} (o : outcome A) : bool :=
  match o with Return _ => false | Raise _ => true end.

(** ** 1. Using self: [Student] *)

Module Student.
Record t := mk { name : value; marks : value }.

Definition __init__ (name marks : value) : t :=
  {| name := name; marks := marks |}.

(** [return f"Student: {self.name}, Marks: {self.marks}"] *)
Definition display (self : t) : string :=
  "Student: " +:+ str (name self) +:+ ", Marks: " +:+ str (marks self).
End Student.

(** ** 12. Static methods: [TemperatureConverter]

    The arithmetic is the exact one: Python's [/] is true division, so the
    operands are taken in the rationals. *)

Module TemperatureConverter.
(** [return (c * 9/5) + 32] *)
Definition celsius_to_fahrenheit (c : Q) : Q := (c * 9 / 5 + 32)%Q.

(** [return (f - 32) * 5/9] *)
Definition fahrenheit_to_celsius (f : Q) : Q := ((f - 32) * 5 / 9)%Q.

(** [return celsius <= 0] *)
Definition is_freezing (celsius : Q) : bool := Qle_bool celsius 0.
End TemperatureConverter.

(** ** 20. A custom exception: [check_age] *)

(** [if age < 18: raise InvalidAgeError(age)] then [return True]. *)
Definition check_age (age : Z) : outcome bool :=
  if age <? 18 then Raise (InvalidAge (InvalidAgeError.__init__ age None))
  else Return true.

(** ** The interpreter state shared by the vignettes *)

(** Functions defined in a class body, by the line of their [def]. *)
Inductive method :=
| Counter_init_35        (* [Counter.__init__], line 35: [Counter.count += 1] *)
| Counter_get_count_41   (* [@classmethod get_count], line 41 *)
| Counter_init_629       (* [Counter.__init__], line 629 *)
| Counter_call_633       (* [Counter.__call__], line 633 *)
| Counter_get_values_639 (* [Counter.get_values], line 639 *)
| Counter_reset_642.     (* [Counter.reset], line 642 *)

(** A class object: its [__name__], the data attributes assigned in the class
    body and the functions defined there. *)
Record class_obj := mkClass {
  cls_name : string;
  cls_vars : gmap string Z;
  cls_methods : gmap string method;
}.

(** Instances with identity.  An instance remembers the class object it was
    created from (its [__class__]), not the name that class was bound to. *)
Inductive instance :=
| ICounter (cls : nat)
| ICallableCounter (cls : nat) (count : Z) (values : list value)
| IDatabaseConnection (host user password : value).

Record World := mkWorld {
  console : list string;          (* one entry per [print] call *)
  classes : list class_obj;       (* class objects, by identity *)
  globals : gmap string nat;      (* module namespace: name -> class object *)
  heap : list instance;           (* instances, by identity *)
  instances : gmap string nat;    (* the dict [instances] closed over by
                                     [get_instance], keyed by the class *)
  fs : gmap string string;        (* files on disk: path -> contents *)
}.

Definition initial_world : World :=
  {| console := []; classes := []; globals := ∅; heap := [];
     instances := ∅; fs := ∅ |}.

Definition M (A : Type) : Type := World -> outcome A * World.

Definition ret {A} (a : A) : M A := fun w => (Return a, w).

Definition raise {A} (e : exn) : M A := fun w => (Raise e, w).

Definition bind {A B} (c : M A) (k : A -> M B) : M B :=
  fun w =>
    match c w with
    | (Return a, w') => k a w'
    | (Raise e, w') => (Raise e, w')
    end.

Declare Scope py_scope.
Delimit Scope py_scope with py.
Notation "x <- c ;; k" := (bind c (fun x => k))
  (at level 100, c at next level, right associativity) : py_scope.
Notation "c ;; k" := (bind c (fun _ => k))
  (at level 100, right associativity) : py_scope.
Open Scope py_scope.

(** The world after some more lines on the console. *)
Definition add_console (out : list string) (w : World) : World :=
  {| console := console w ++ out; classes := classes w; globals := globals w;
     heap := heap w; instances := instances w; fs := fs w |}.

(** [print(s)] *)
Definition print (s : string) : M unit :=
  fun w => (Return tt, add_console [s] w).

Definition set_classes (cs : list class_obj) (w : World) : World :=
  {| console := console w; classes := cs; globals := globals w;
     heap := heap w; instances := instances w; fs := fs w |}.

Definition set_globals (g : gmap string nat) (w : World) : World :=
  {| console := console w; classes := classes w; globals := g;
     heap := heap w; instances := instances w; fs := fs w |}.

Definition set_heap (h : list instance) (w : World) : World :=
  {| console := console w; classes := classes w; globals := globals w;
     heap := h; instances := instances w; fs := fs w |}.

Definition set_instances (i : gmap string nat) (w : World) : World :=
  {| console := console w; classes := classes w; globals := globals w;
     heap := heap w; instances := i; fs := fs w |}.

Definition set_fs (f : gmap string string) (w : World) : World :=
  {| console := console w; classes := classes w; globals := globals w;
     heap := heap w; instances := instances w; fs := f |}.

(** Allocation of a fresh instance; its identity is its position. *)
Definition alloc (i : instance) : M nat :=
  fun w => (Return (length (heap w)), set_heap (heap w ++ [i]) w).

(** What was printed between two worlds. *)
Definition printed (w w' : World) : list string :=
  drop (length (console w)) (console w').

(** ** 2. Using cls, and 19. callable objects: the two [Counter] classes *)

(** The statement [class name: ...]: builds a class object and binds the
    name to it in the module namespace, replacing an earlier binding. *)
Definition class_statement (c : class_obj) : M unit :=
  fun w =>
    (Return tt,
     set_globals (<[cls_name c := length (classes w)]> (globals w))
       (set_classes (classes w ++ [c]) w)).

(** Lines 30-45. *)
Definition Counter_30 : class_obj :=
  {| cls_name := "Counter";
     cls_vars := {[ "count" := 0 ]};
     cls_methods := {[ "__init__" := Counter_init_35;
                       "get_count" := Counter_get_count_41 ]} |}.

(** Lines 628-644. *)
Definition Counter_628 : class_obj :=
  {| cls_name := "Counter";
     cls_vars := ∅;
     cls_methods := {[ "__init__" := Counter_init_629;
                       "__call__" := Counter_call_633;
                       "get_values" := Counter_get_values_639;
                       "reset" := Counter_reset_642 ]} |}.

(** Reading a global name that is bound to a class. *)
Definition load_global (name : string) : M nat :=
  fun w =>
    match globals w !! name with
    | Some c => (Return c, w)
    | None => (Raise (NameError name), w)
    end.

Definition class_of (c : nat) : M class_obj :=
  fun w =>
    match classes w !! c with
    | Some co => (Return co, w)
    | None => (Raise TypeError, w)
    end.

(** [c.attr] for a data attribute of the class object [c]. *)
Definition class_getattr (c : nat) (attr : string) : M Z :=
  co <- class_of c ;;
  match cls_vars co !! attr with
  | Some v => ret v
  | None => raise (AttributeError (cls_name co) attr)
  end.

(** [c.attr = v] on the class object [c]. *)
Definition class_setattr (c : nat) (attr : string) (v : Z) : M unit :=
  co <- class_of c ;;
  fun w =>
    (Return tt,
     set_classes
       (<[c := {| cls_name := cls_name co;
                  cls_vars := <[attr := v]> (cls_vars co);
                  cls_methods := cls_methods co |}]> (classes w)) w).

(** [c.name] for a function of the class object [c]. *)
Definition class_getmethod (c : nat) (name : string) : M method :=
  co <- class_of c ;;
  match cls_methods co !! name with
  | Some m => ret m
  | None => raise (AttributeError (cls_name co) name)
  end.

(** [c()]: the instance is created, then the class's [__init__] runs.
    Line 38 is [Counter.count += 1]: it looks up the *name* [Counter] in the
    module namespace at the time of the call. *)
Definition construct (c : nat) : M nat :=
  m <- class_getmethod c "__init__" ;;
  match m with
  | Counter_init_35 =>
      self <- alloc (ICounter c) ;;
      k <- load_global "Counter" ;;
      n <- class_getattr k "count" ;;
      class_setattr k "count" (n + 1) ;;
      ret self
  | Counter_init_629 =>
      alloc (ICallableCounter c 0 [])
  | _ => raise TypeError
  end.

(** [c.get_count()] on a class object: a class method receives the class. *)
Definition class_get_count (c : nat) : M Z :=
  m <- class_getmethod c "get_count" ;;
  match m with
  | Counter_get_count_41 => class_getattr c "count"
  | _ => raise TypeError
  end.

(** [x.get_count()] on an instance: the attribute is found on the class of
    the instance, and the class method receives that class. *)
Definition instance_get_count (a : nat) : M Z :=
  fun w =>
    match heap w !! a with
    | Some (ICounter c) | Some (ICallableCounter c _ _) => class_get_count c w
    | Some (IDatabaseConnection _ _ _) =>
        (Raise (AttributeError "DatabaseConnection" "get_count"), w)
    | None => (Raise TypeError, w)
    end.

(** The two class statements of the module, in file order. *)
Definition module_classes : M unit :=
  class_statement Counter_30 ;;
  class_statement Counter_628.

(** [main], lines 749-753. *)
Definition main_using_cls : M Z :=
  print (nl +:+ "2. Using cls") ;;
  k1 <- load_global "Counter" ;; counter1 <- construct k1 ;;
  k2 <- load_global "Counter" ;; counter2 <- construct k2 ;;
  k3 <- load_global "Counter" ;; counter3 <- construct k3 ;;
  k <- load_global "Counter" ;;
  n <- class_get_count k ;;
  print ("Total counters created: " +:+ pretty n) ;;
  ret n.

(** The same three constructions, asking each instance for the count. *)
Definition three_counters_by_instance : M (Z * Z * Z) :=
  k1 <- load_global "Counter" ;; counter1 <- construct k1 ;;
  k2 <- load_global "Counter" ;; counter2 <- construct k2 ;;
  k3 <- load_global "Counter" ;; counter3 <- construct k3 ;;
  n1 <- instance_get_count counter1 ;;
  n2 <- instance_get_count counter2 ;;
  n3 <- instance_get_count counter3 ;;
  ret (n1, n2, n3).

(** ** 6. Constructors and destructors: [Logger] and its log file *)

(** A text file object as returned by [open]: what was written and not yet
    flushed sits in [f_pending] until the file is closed. *)
Record file_obj := mkFile {
  f_path : string;
  f_closed : bool;
  f_pending : string;
}.

(** [open(path, "a")]: the file is created, empty, when it does not exist. *)
Definition open_append (path : string) : M file_obj :=
  fun w =>
    (Return {| f_path := path; f_closed := false; f_pending := "" |},
     match fs w !! path with
     | Some _ => w
     | None => set_fs (<[path := ""]> (fs w)) w
     end).

(** [f.write(s)] *)
Definition file_write (f : file_obj) (s : string) : M file_obj :=
  if f_closed f then raise (ValueError "I/O operation on closed file.")
  else ret {| f_path := f_path f; f_closed := false;
              f_pending := f_pending f +:+ s |}.

(** [f.close()]: flushes, and does nothing on a file already closed. *)
Definition file_close (f : file_obj) : M file_obj :=
  if f_closed f then ret f
  else
    fun w =>
      (Return {| f_path := f_path f; f_closed := true; f_pending := "" |},
       set_fs (<[f_path f := default "" (fs w !! f_path f) +:+ f_pending f]>
                 (fs w)) w).

Module Logger.
(** [log_file] is [None] while the attribute does not exist, which is
    what [hasattr(self, 'log_file')] asks. *)
Record t := mk { log_file : option file_obj }.

Definition __init__ : M t :=
  print "Logger object created" ;;
  f <- open_append "log.txt" ;;
  ret {| log_file := Some f |}.

(** [self.log_file.write(message + "\n")] *)
Definition log (self : t) (message : string) : M t :=
  match log_file self with
  | Some f =>
      f' <- file_write f (message +:+ nl) ;;
      ret {| log_file := Some f' |}
  | None => raise (AttributeError "Logger" "log_file")
  end.

Definition close_if_present (self : t) : M t :=
  match log_file self with
  | Some f => f' <- file_close f ;; ret {| log_file := Some f' |}
  | None => ret self
  end.

Definition __del__ (self : t) : M t :=
  self' <- close_if_present self ;;
  print "Logger object destroyed" ;;
  ret self'.

Definition destroy (self : t) : M t :=
  self' <- close_if_present self ;;
  print "Logger object destroyed" ;;
  ret self'.
End Logger.

(** [main], lines 772-775. *)
Definition main_constructors_and_destructors : M Logger.t :=
  print (nl +:+ "6. Constructors and Destructors") ;;
  print "Creating logger..." ;;
  logger <- Logger.__init__ ;;
  Logger.destroy logger.

(** ** 17. Class decorators: [singleton] and [DatabaseConnection] *)

(** Binding of the arguments of a call to the parameters of a function
    without defaults: positional arguments first, then keywords; too many
    positionals, an unknown keyword, a parameter given twice or a missing
    one make the call a [TypeError]. *)
Definition bind_parameter (args : list value) (kwargs : gmap string value)
    (i : nat) (p : string) : option value :=
  match args !! i, kwargs !! p with
  | Some a, None => Some a
  | None, Some k => Some k
  | _, _ => None
  end.

Definition bind_arguments (params : list string) (args : list value)
    (kwargs : gmap string value) : option (list value) :=
  if bool_decide (length args <= length params)%nat
     && bool_decide (dom kwargs ⊆ list_to_set params)
  then mapM id (imap (bind_parameter args kwargs) params)
  else None.

Module DatabaseConnection.
(** [def __init__(self, host, user, password)].  An instance whose
    [__init__] fails on its arguments is never referenced by anything and
    is not recorded in the heap. *)
Definition __init__ (args : list value) (kwargs : gmap string value)
  : M nat :=
  match bind_arguments ["host"; "user"; "password"] args kwargs with
  | Some [host; user; password] =>
      self <- alloc (IDatabaseConnection host user password) ;;
      print ("Connecting to database at " +:+ str host) ;;
      ret self
  | _ => raise TypeError
  end.

(** [return f"Executing {sql} on {self.host}"] *)
Definition query (self : nat) (sql : value) : M string :=
  fun w =>
    match heap w !! self with
    | Some (IDatabaseConnection host _ _) =>
        (Return ("Executing " +:+ str sql +:+ " on " +:+ str host), w)
    | _ => (Raise TypeError, w)
    end.
End DatabaseConnection.

(** The closure [get_instance] that [@singleton] binds to the name
    [DatabaseConnection]; [cls] is the decorated class, the key of the
    dict. *)
Definition cls : string := "DatabaseConnection".

Definition get_instance (args : list value) (kwargs : gmap string value)
  : M nat :=
  fun w =>
    (match instances w !! cls with
     | None =>
         self <- DatabaseConnection.__init__ args kwargs ;;
         (fun w' => (Return tt, set_instances (<[cls := self]> (instances w')) w'))
     | Some _ => ret tt
     end ;;
     (fun w' =>
        match instances w' !! cls with
        | Some self => (Return self, w')
        | None => (Raise (KeyError cls), w')
        end)) w.

(** The world after the call that fills the cache: the new instance, the
    line printed by its [__init__], and the entry of the dict. *)
Definition first_call_world (host user password : value) (w : World) : World :=
  set_instances (<[cls := length (heap w)]> (instances w))
    (add_console ["Connecting to database at " +:+ str host]
       (set_heap (heap w ++ [IDatabaseConnection host user password]) w)).

(** A sequence of calls, each one observed on its own (as a caller that
    catches the exception of a failed call would). *)
Fixpoint calls (cs : list (list value * gmap string value))
  : World -> list (outcome nat) * World :=
  fun w =>
    match cs with
    | [] => ([], w)
    | (args, kwargs) :: cs' =>
        let '(r, w') := get_instance args kwargs w in
        let '(rs, w'') := calls cs' w' in
        (r :: rs, w'')
    end.

(** ** 18. Properties: [Product] *)

Module Product.
(** [_price] is [None] once [del product.price] removed the attribute. *)
Record t := mk { _price : option Z }.

Definition __init__ : t := {| _price := Some 0 |}.

(** The getter of [price]. *)
Definition price (self : t) : outcome Z :=
  match _price self with
  | Some v => Return v
  | None => Raise (AttributeError "Product" "_price")
  end.

(** The setter of [price]. *)
Definition set_price (self : t) (value : Z) : M t :=
  if value <? 0 then
    print "Price cannot be negative" ;;
    ret self
  else ret {| _price := Some value |}.

(** The deleter of [price]. *)
Definition del_price (self : t) : M t :=
  print "Deleting price" ;;
  match _price self with
  | Some _ => ret {| _price := None |}
  | None => raise (AttributeError "Product" "_price")
  end.
End Product.

(** ** 21. Iterables: [CustomRange] *)

Module CustomRangeIterator.
Record t := mk { current : Z; stop : Z; step : Z }.

Definition __init__ (start stop step : Z) : t :=
  {| current := start; stop := stop; step := step |}.

Definition __iter__ (self : t) : t := self.

Definition __next__ (self : t) : outcome Z * t :=
  if ((step self >? 0) && (current self <? stop self))
     || ((step self <? 0) && (current self >? stop self))
  then
    let value := current self in
    (Return value,
     {| current := current self + step self; stop := stop self;
        step := step self |})
  else (Raise StopIteration, self).
End CustomRangeIterator.

Module CustomRange.
Record t := mk { start : Z; stop : Z; step : Z }.

(** [def __init__(self, start, stop, step=1)] *)
Definition __init__ (start stop : Z) (step : option Z) : t :=
  {| start := start; stop := stop; step := default 1 step |}.

Definition __iter__ (self : t) : CustomRangeIterator.t :=
  CustomRangeIterator.__init__ (start self) (stop self) (step self).
End CustomRange.

(** The iteration protocol of [for x in it] and [list(it)]: call [__next__]
    until it raises [StopIteration].  [None] when [fuel] calls were not
    enough to see the end; another exception ends the loop with it. *)
Fixpoint iterate (fuel : nat) (it : CustomRangeIterator.t)
  : option (outcome (list Z)) :=
  match fuel with
  | O => None
  | S fuel' =>
      match CustomRangeIterator.__next__ it with
      | (Return v, it') =>
          match iterate fuel' it' with
          | Some (Return vs) => Some (Return (v :: vs))
          | r => r
          end
      | (Raise StopIteration, _) => Some (Return [])
      | (Raise e, _) => Some (Raise e)
      end
  end.

(** [list(r)] for a [CustomRange] [r]. *)
Definition to_list (fuel : nat) (r : CustomRange.t) : option (outcome (list Z)) :=
  iterate fuel (CustomRangeIterator.__iter__ (CustomRange.__iter__ r)).

(** Python's built-in [range(start, stop, step)], as the language reference
    defines it: [ValueError] for a zero step; otherwise the items
    [r[i] = start + step*i] for [0 <= i < len(r)], where [len(r)] is the
    number of [i >= 0] with [r[i] < stop] (positive step) or [r[i] > stop]
    (negative step). *)
Definition range_len (start stop step : Z) : Z :=
  if step >? 0 then
    if start <? stop then (stop - start - 1) / step + 1 else 0
  else
    if stop <? start then (start - stop - 1) / (- step) + 1 else 0.

Definition range_items (start step : Z) (n : nat) : list Z :=
  map (fun i => start + step * Z.of_nat i) (seq 0 n).

Definition builtin_range (start stop step : Z) : outcome (list Z) :=
  if step =? 0 then Raise (ValueError "range() arg 3 must not be zero")
  else Return (range_items start step (Z.to_nat (range_len start stop step))).

(** A number of [__next__] calls that is always enough: every successful
    call moves [current] at least one unit towards [stop]. *)
Definition enough_fuel (r : CustomRange.t) : nat :=
  S (Z.to_nat (Z.abs (CustomRange.stop r - CustomRange.start r))).

(** ** The vignettes as operations on the world *)

Inductive vignette :=
| UsingSelf (name marks : value)        (* [print(Student(name, marks).display())] *)
| UsingCls                               (* section 2 of [main] *)
| ConstructorsAndDestructors (messages : list string)
                                         (* [Logger()], [log] each message, [destroy()] *)
| CelsiusToFahrenheit (c : Q)
| FahrenheitToCelsius (f : Q)
| Singleton (args : list value) (kwargs : gmap string value)
                                         (* one call of the decorated class *)
| PriceProperty (v : Z)                  (* [p = Product(); p.price = v; p.price] *)
| CheckAge (age : Z)
| Iterate (start stop step : Z).         (* [list(CustomRange(start, stop, step))] *)

Inductive result :=
| RNone
| RStr (s : string)
| RInt (n : Z)
| RRat (q : Q)
| RBool (b : bool)
| RList (l : list Z)
| RRef (a : nat).

Definition lift {A} (o : outcome A) : M A := fun w => (o, w).

Fixpoint log_all (logger : Logger.t) (messages : list string) : M Logger.t :=
  match messages with
  | [] => ret logger
  | m :: ms => logger' <- Logger.log logger m ;; log_all logger' ms
  end.

Definition run (v : vignette) : M result :=
  match v with
  | UsingSelf name marks =>
      let s := Student.display (Student.__init__ name marks) in
      print s ;; ret (RStr s)
  | UsingCls => n <- main_using_cls ;; ret (RInt n)
  | ConstructorsAndDestructors messages =>
      logger <- Logger.__init__ ;;
      logger' <- log_all logger messages ;;
      Logger.destroy logger' ;;
      ret RNone
  | CelsiusToFahrenheit c =>
      ret (RRat (TemperatureConverter.celsius_to_fahrenheit c))
  | FahrenheitToCelsius f =>
      ret (RRat (TemperatureConverter.fahrenheit_to_celsius f))
  | Singleton args kwargs => a <- get_instance args kwargs ;; ret (RRef a)
  | PriceProperty v =>
      p <- Product.set_price Product.__init__ v ;;
      n <- lift (Product.price p) ;;
      ret (RInt n)
  | CheckAge age => b <- lift (check_age age) ;; ret (RBool b)
  | Iterate start stop step =>
      let r := CustomRange.__init__ start stop (Some step) in
      match to_list (enough_fuel r) r with
      | Some o => l <- lift o ;; ret (RList l)
      | None => ret RNone
      end
  end.

(** ** 21. Iterables: [Countdown] *)

Module Countdown.
Record t := mk { start : Z }.

Definition __init__ (start : Z) : t := {| start := start |}.

(** [return self]: the iterable is its own iterator. *)
Definition __iter__ (self : t) : t := self.

Definition __next__ (self : t) : outcome Z * t :=
  if start self >=? 0 then
    let current := start self in
    (Return current, {| start := start self - 1 |})
  else (Raise StopIteration, self).
End Countdown.

(** [for x in c] over a [Countdown]: the items, and the object as the loop
    leaves it.  [None] when [fuel] calls of [__next__] were not enough. *)
Fixpoint countdown_loop (fuel : nat) (it : Countdown.t)
  : option (outcome (list Z) * Countdown.t) :=
  match fuel with
  | O => None
  | S fuel' =>
      match Countdown.__next__ it with
      | (Return v, it') =>
          match countdown_loop fuel' it' with
          | Some (Return vs, it'') => Some (Return (v :: vs), it'')
          | r => r
          end
      | (Raise StopIteration, it') => Some (Return [], it')
      | (Raise e, it') => Some (Raise e, it')
      end
  end.

Definition countdown_list (fuel : nat) (c : Countdown.t)
  : option (outcome (list Z) * Countdown.t) :=
  countdown_loop fuel (Countdown.__iter__ c).

(** ** 19. Callable objects: the [Counter] of lines 628-644 *)

Module Counter.
Record t := mk { count : Z; values : list value }.

Definition __init__ : t := {| count := 0; values := [] |}.

(** [def __call__(self, value=None)]; a call without argument is a call
    with [VNone]. *)
Definition __call__ (self : t) (value : value) : Z * t :=
  let values' :=
    match value with
    | VNone => values self
    | _ => (values self ++ [value])%list
    end in
  (count self + 1, {| count := count self + 1; values := values' |}).

Definition get_values (self : t) : list value := values self.

Definition reset (self : t) : t := {| count := 0; values := [] |}.
End Counter.

(** Successive calls of one counter, with the values they return. *)
Fixpoint counter_calls (self : Counter.t) (args : list value)
  : list Z * Counter.t :=
  match args with
  | [] => ([], self)
  | a :: args' =>
      let '(n, self') := Counter.__call__ self a in
      let '(ns, self'') := counter_calls self' args' in
      (n :: ns, self'')
  end.

(** ** 18. Properties: [Circle] (exact arithmetic) *)

Module Circle.
Record t := mk { _radius : Q }.

Definition __init__ (radius : Q) : t := {| _radius := radius |}.

Definition radius (self : t) : Q := _radius self.

(** The setter of [radius]; the object is returned as the call leaves
    it. *)
Definition set_radius (self : t) (value : Q) : outcome unit * t :=
  if Qle_bool value 0 then (Raise (ValueError "Radius must be positive"), self)
  else (Return tt, {| _radius := value |}).

Definition diameter (self : t) : Q := (2 * _radius self)%Q.

(** [self.radius = value / 2] *)
Definition set_diameter (self : t) (value : Q) : outcome unit * t :=
  set_radius self (value / 2)%Q.
End Circle.

Inductive circle_assignment :=
| AssignRadius (value : Q)
| AssignDiameter (value : Q).

(** A sequence of assignments, each caught on its own when it raises. *)
Fixpoint circle_assign (c : Circle.t) (l : list circle_assignment) : Circle.t :=
  match l with
  | [] => c
  | AssignRadius v :: l' => circle_assign (snd (Circle.set_radius c v)) l'
  | AssignDiameter v :: l' => circle_assign (snd (Circle.set_diameter c v)) l'
  end.

(** Assignments and deletions of [price], each caught on its own. *)
Inductive price_statement :=
| AssignPrice (value : Z)
| DeletePrice.

Definition price_step (p : Product.t) (s : price_statement) (w : World)
  : Product.t * World :=
  match s with
  | AssignPrice v =>
      match Product.set_price p v w with
      | (Return p', w') => (p', w')
      | (Raise _, w') => (p, w')
      end
  | DeletePrice =>
      match Product.del_price p w with
      | (Return p', w') => (p', w')
      | (Raise _, w') => (p, w')
      end
  end.

Fixpoint price_steps (p : Product.t) (l : list price_statement) (w : World)
  : Product.t * World :=
  match l with
  | [] => (p, w)
  | s :: l' => let '(p', w') := price_step p s w in price_steps p' l' w'
  end.

(** ** 11. Class methods: [Book] *)

(** [s.split(sep)] for a separator of one character. *)
Fixpoint split (sep : Ascii.ascii) (s : string) : list string :=
  match s with
  | EmptyString => [EmptyString]
  | String c s' =>
      if Ascii.eqb c sep then EmptyString :: split sep s'
      else
        match split sep s' with
        | x :: xs => String c x :: xs
        | [] => [String c EmptyString]
        end
  end.

Fixpoint count_char (c : Ascii.ascii) (s : string) : nat :=
  match s with
  | EmptyString => O
  | String c' s' => (if Ascii.eqb c' c then 1 else 0) + count_char c s'
  end.

Definition bar : Ascii.ascii := Ascii.ascii_of_nat 124.

Module Book.
Record t := mk { title : value; author : value }.

(** The class variable [total_books] is passed in and out. *)
Definition increment_book_count (total_books : Z) : Z := total_books + 1.

Definition get_total_books (total_books : Z) : Z := total_books.

(** [def __init__(self, title, author=None)] *)
Definition __init__ (title : value) (author : option value) (total_books : Z)
  : t * Z :=
  ({| title := title; author := default VNone author |},
   increment_book_count total_books).

Definition create_anonymous_book (title : value) (total_books : Z) : t * Z :=
  __init__ title (Some VNone) total_books.

(** [title, author = book_str.split("|")] then [cls(title, author)].  The
    text of the two [ValueError]s, which varies with the Python version, is
    abbreviated. *)
Definition from_string (book_str : string) (total_books : Z)
  : outcome t * Z :=
  match split bar book_str with
  | [title; author] =>
      let '(b, n) := __init__ (VStr title) (Some (VStr author)) total_books in
      (Return b, n)
  | [] | [_] => (Raise (ValueError "not enough values to unpack"), total_books)
  | _ => (Raise (ValueError "too many values to unpack"), total_books)
  end.
End Book.

Inductive book_request :=
| NewBook (title : value) (author : option value)
| AnonymousBook (title : value)
| BookFromString (book_str : string).

Definition create_book (r : book_request) (total_books : Z) : outcome Book.t * Z :=
  match r with
  | NewBook title author =>
      let '(b, n) := Book.__init__ title author total_books in (Return b, n)
  | AnonymousBook title =>
      let '(b, n) := Book.create_anonymous_book title total_books in
      (Return b, n)
  | BookFromString s => Book.from_string s total_books
  end.

Fixpoint create_books (rs : list book_request) (total_books : Z)
  : list (outcome Book.t) * Z :=
  match rs with
  | [] => ([], total_books)
  | r :: rs' =>
      let '(o, n) := create_book r total_books in
      let '(os, n') := create_books rs' n in
      (o :: os, n')
  end.

Definition created {A} (os : list (outcome A)) : nat :=
  length (filter (fun o => raises o = false) os).

(** ** 13. Composition: [Engine] and [CarWithEngine] *)

Module Engine.
Record t := mk { capacity : value; fuel_type : value; running : bool }.

Definition __init__ (capacity : value) (fuel_type : option value) : t :=
  {| capacity := capacity; fuel_type := default (VStr "gasoline") fuel_type;
     running := false |}.

Definition start (self : t) : string * t :=
  ("Engine with " +:+ str (capacity self) +:+ "L capacity started",
   {| capacity := capacity self; fuel_type := fuel_type self;
      running := true |}).

Definition stop (self : t) : string * t :=
  ("Engine stopped",
   {| capacity := capacity self; fuel_type := fuel_type self;
      running := false |}).
End Engine.

Module CarWithEngine.
Record t := mk { brand : value; engine : Engine.t; speed : Z }.

Definition __init__ (brand engine_capacity : value) (fuel_type : option value)
  : t :=
  {| brand := brand; engine := Engine.__init__ engine_capacity fuel_type;
     speed := 0 |}.

Definition start_engine (self : t) : string * t :=
  let '(m, e) := Engine.start (engine self) in
  (str (brand self) +:+ " car: " +:+ m,
   {| brand := brand self; engine := e; speed := speed self |}).

Definition stop_engine (self : t) : string * t :=
  let '(m, e) := Engine.stop (engine self) in
  (str (brand self) +:+ " car: " +:+ m,
   {| brand := brand self; engine := e; speed := speed self |}).

Definition accelerate (self : t) (amount : Z) : string * t :=
  if Engine.running (engine self) then
    let speed' := speed self + amount in
    (str (brand self) +:+ " accelerating to " +:+ pretty speed' +:+ " km/h",
     {| brand := brand self; engine := engine self; speed := speed' |})
  else ("Cannot accelerate. Engine is not running.", self).

Definition get_engine_capacity (self : t) : value :=
  Engine.capacity (engine self).
End CarWithEngine.

Inductive car_call :=
| StartEngine
| StopEngine
| Accelerate (amount : Z).

Definition car_step (self : CarWithEngine.t) (c : car_call)
  : string * CarWithEngine.t :=
  match c with
  | StartEngine => CarWithEngine.start_engine self
  | StopEngine => CarWithEngine.stop_engine self
  | Accelerate amount => CarWithEngine.accelerate self amount
  end.

Fixpoint drive (self : CarWithEngine.t) (cs : list car_call)
  : list string * CarWithEngine.t :=
  match cs with
  | [] => ([], self)
  | c :: cs' =>
      let '(m, self') := car_step self c in
      let '(ms, self'') := drive self' cs' in
      (m :: ms, self'')
  end.

Definition is_start (c : car_call) : bool :=
  match c with StartEngine => true | _ => false end.

Definition amount_of (c : car_call) : Z :=
  match c with Accelerate amount => amount | _ => 0 end.

(** ** 14. Aggregation: [Department]

    Employees have no [__eq__]: [in] and [remove] compare them by identity,
    so an employee is represented by its identity. *)

(** [l.remove(x)] on a list that contains [x]: the first occurrence goes. *)
Fixpoint remove_first (x : nat) (l : list nat) : list nat :=
  match l with
  | [] => []
  | y :: l' => if Nat.eqb y x then l' else y :: remove_first x l'
  end.

Module Department.
Record t := mk { name : value; employees : list nat }.

Definition __init__ (name : value) (employees : list nat) : t :=
  {| name := name; employees := employees |}.

Definition add_employee (self : t) (employee : nat) : t :=
  {| name := name self; employees := (employees self ++ [employee])%list |}.

Definition remove_employee (self : t) (employee : nat) : t :=
  if bool_decide (employee ∈ employees self) then
    {| name := name self; employees := remove_first employee (employees self) |}
  else self.

Definition list_employees (self : t) : list nat := employees self.
End Department.

(** ** Helpers for the statements about the first [Counter] *)

(** [n] times [Counter()]. *)
Fixpoint constructs (n : nat) : M unit :=
  match n with
  | O => ret tt
  | S n' =>
      k <- load_global "Counter" ;;
      construct k ;;
      constructs n'
  end.

(** The name [Counter] is bound to a class object with the functions of
    lines 30-45 whose [count] is [c]. *)
Definition counts (w : World) (k : nat) (c : Z) : Prop :=
  globals w !! "Counter" = Some k
  /\ exists co, classes w !! k = Some co
                /\ cls_methods co = cls_methods Counter_30
                /\ cls_vars co !! "count" = Some c.

(** ** The remaining classes of the script *)

(** *** 3. Public members: [Car] *)

Module Car.
Record t := mk { brand : value }.

Definition __init__ (brand : value) : t := {| brand := brand |}.

Definition start (self : t) : string :=
  "The " +:+ str (brand self) +:+ " car is starting...".
End Car.

(** *** 5. Static methods: [MathUtils] *)

Module MathUtils.
Definition add (a b : Z) : Z := a + b.

Definition multiply (a b : Z) : Z := a * b.

(** [PI = 3.14159], as the text [str] gives for it. *)
Definition PI : string := "3.14159".
End MathUtils.

(** *** 7. Access modifiers: [Employee] *)

(** [bool(v)] *)
Definition truthy (v : value) : bool :=
  match v with
  | VNone => false
  | VBool b => b
  | VInt n => negb (n =? 0)
  | VStr s => negb (String.eqb s EmptyString)
  end.

Module Employee.
(** [__ssn] under its mangled name. *)
Record t := mk { name : value; _salary : value; _Employee__ssn : value }.

Definition __init__ (name salary ssn : value) : t :=
  {| name := name; _salary := salary; _Employee__ssn := ssn |}.

Definition get_salary (self : t) : value := _salary self.

Definition has_ssn (self : t) : bool := truthy (_Employee__ssn self).

Definition _protected_method (self : t) : string :=
  "This method is intended for internal use".

Definition _Employee__private_method (self : t) : string :=
  "This method is private".
End Employee.

(** *** 8. [super()]: [Person] and [Teacher] *)

Module Person.
Record t := mk { name : value }.

Definition __init__ (name : value) : t := {| name := name |}.

Definition introduce (self : t) : string := "Hi, I'm " +:+ str (name self).
End Person.

Module Teacher.
Record t := mk { person : Person.t; subject : value }.

Definition __init__ (name subject : value) : t :=
  {| person := Person.__init__ name; subject := subject |}.

Definition get_info (self : t) : string :=
  let introduction := Person.introduce (person self) in
  introduction +:+ " and I teach " +:+ str (subject self).
End Teacher.

(** *** 9. Abstract classes: [Shape] and [Rectangle] *)

Module Shape.
(** [Shape()]: an abstract class cannot be instantiated. *)
Definition __init__ : outcome unit := Raise TypeError.
End Shape.

Module Rectangle.
Record t := mk { width : Z; height : Z }.

Definition __init__ (width height : Z) : t :=
  {| width := width; height := height |}.

Definition area (self : t) : Z := width self * height self.

Definition perimeter (self : t) : Z := 2 * (width self + height self).

(** [Shape.describe], inherited. *)
Definition describe (self : t) : string :=
  "This shape has an area of " +:+ pretty (area self).
End Rectangle.

(** *** 10. Instance methods: [Dog] *)

Module Dog.
Record t := mk { name : value; breed : value; tricks : list value }.

Definition species : string := "Canis familiaris".

Definition __init__ (name breed : value) : t :=
  {| name := name; breed := breed; tricks := [] |}.

Definition bark (self : t) : string :=
  str (name self) +:+ " (" +:+ str (breed self) +:+ ") says: Woof!".

Definition learn_trick (self : t) (trick : value) : string * t :=
  (str (name self) +:+ " has learned to " +:+ str trick +:+ "!",
   {| name := name self; breed := breed self;
      tricks := (tricks self ++ [trick])%list |}).

Definition describe (self : t) : string :=
  str (name self) +:+ " is a " +:+ str (breed self) +:+ ", which is a "
  +:+ species.
End Dog.

Fixpoint learn_tricks (dog : Dog.t) (tricks : list value)
  : list string * Dog.t :=
  match tricks with
  | [] => ([], dog)
  | t :: ts =>
      let '(m, dog') := Dog.learn_trick dog t in
      let '(ms, dog'') := learn_tricks dog' ts in
      (m :: ms, dog'')
  end.

(** *** 14. Aggregation: [EmployeeForDept] *)

Module EmployeeForDept.
Record t := mk { name : value; role : value }.

Definition __init__ (name role : value) : t := {| name := name; role := role |}.

Definition describe (self : t) : string :=
  str (name self) +:+ " - " +:+ str (role self).
End EmployeeForDept.

Inductive dept_call :=
| AddEmployee (employee : nat)
| RemoveEmployee (employee : nat).

Fixpoint dept_calls (d : Department.t) (cs : list dept_call) : Department.t :=
  match cs with
  | [] => d
  | AddEmployee e :: cs' => dept_calls (Department.add_employee d e) cs'
  | RemoveEmployee e :: cs' => dept_calls (Department.remove_employee d e) cs'
  end.

(** *** 15. Method resolution order: [A], [B], [C], [D] *)

Module Diamond.
Inductive klass := A | B | C | D.

Definition __name__ (k : klass) : string :=
  match k with A => "A" | B => "B" | C => "C" | D => "D" end.

(** The linearisation of each class (line 466 gives that of [D]). *)
Definition mro (k : klass) : list klass :=
  match k with
  | A => [A]
  | B => [B; A]
  | C => [C; A]
  | D => [D; B; C; A]
  end.

(** The functions a class body defines, with what they return. *)
Definition defines (k : klass) (method : string) : option string :=
  if String.eqb method "show" then Some ("Method from " +:+ __name__ k)
  else if String.eqb method "everyone_has_this" then
    match k with
    | D => None
    | _ => Some ("Method from " +:+ __name__ k)
    end
  else None.

Fixpoint lookup (ks : list klass) (method : string) : option string :=
  match ks with
  | [] => None
  | k :: ks' =>
      match defines k method with
      | Some r => Some r
      | None => lookup ks' method
      end
  end.

(** [k().method()] *)
Definition call (k : klass) (method : string) : outcome string :=
  match lookup (mro k) method with
  | Some r => Return r
  | None => Raise (AttributeError (__name__ k) method)
  end.
End Diamond.

(** *** 16. Function decorators: [say_hello] *)

(** [def say_hello(name)], called with positional arguments. *)
Definition say_hello (args : list value) : outcome string :=
  match args with
  | [name] => Return ("Hello, " +:+ str name +:+ "!")
  | _ => Raise TypeError
  end.

(** *** 17. Class decorators: [PersonWithGreeting] *)

Module PersonWithGreeting.
Record t := mk { name : value }.

Definition __init__ (name : value) : t := {| name := name |}.

(** The method [add_greeting] puts on the class. *)
Definition greet (self : t) : string := "Hello from Decorator!".
End PersonWithGreeting.

(** *** 18. [Circle.area] *)

(** [math.pi], the binary64 number; the rounding of the product is not
    modelled. *)
Definition math_pi : Q := 884279719003555 # 281474976710656.

Definition Circle_area (self : Circle.t) : Q :=
  (math_pi * (Circle._radius self * Circle._radius self))%Q.

(** *** 19. Callable objects: [Multiplier] *)

Module Multiplier.
Record t := mk { factor : Z }.

Definition __init__ (factor : Z) : t := {| factor := factor |}.

Definition __call__ (self : t) (value : Z) : Z := value * factor self.
End Multiplier.

(** *** 20. The exception hierarchy: [QueryError] *)

Module QueryError.
Record t := mk { query : value; message : value }.

Definition __init__ (query message : value) : t :=
  {| query := query; message := message |}.

(** The text given to [Exception.__init__]. *)
Definition __str__ (self : t) : string :=
  "Query failed: " +:+ str (message self) +:+ ", Query: "
  +:+ str (query self).
End QueryError.

(** ** The state of a whole run *)

(** Besides the [World], a run of the script shares the class variables
    [Bank.bank_name] and [Book.total_books], and time passes: [s_reads]
    counts the readings of the clock taken so far. *)
Record Session := mkSession {
  s_world : World;
  s_bank_name : value;
  s_total_books : Z;
  s_reads : nat;
}.

Definition MS (A : Type) : Type := Session -> outcome A * Session.

Definition retS {A} (a : A) : MS A := fun s => (Return a, s).

Definition bindS {A B} (c : MS A) (k : A -> MS B) : MS B :=
  fun s =>
    match c s with
    | (Return a, s') => k a s'
    | (Raise e, s') => (Raise e, s')
    end.

Notation "x <~ c ;; k" := (bindS c (fun x => k))
  (at level 100, c at next level, right associativity) : py_scope.
Notation "c ;;; k" := (bindS c (fun _ => k))
  (at level 100, right associativity) : py_scope.

Definition set_world (w : World) (s : Session) : Session :=
  {| s_world := w; s_bank_name := s_bank_name s;
     s_total_books := s_total_books s; s_reads := s_reads s |}.

(** A computation on the world, within a session. *)
Definition in_world {A} (c : M A) : MS A :=
  fun s => let '(o, w) := c (s_world s) in (o, set_world w s).

Definition add_console_S (out : list string) (s : Session) : Session :=
  set_world (add_console out (s_world s)) s.

Definition printS (line : string) : MS unit := in_world (print line).

Definition liftS {A} (o : outcome A) : MS A := fun s => (o, s).

(** *** 4. Class variables: [Bank] *)

Module Bank.
(** [cls.bank_name = name], called on [Bank]. *)
Definition change_bank_name (name : value) : MS unit :=
  fun s =>
    (Return tt,
     {| s_world := s_world s; s_bank_name := name;
        s_total_books := s_total_books s; s_reads := s_reads s |}).

(** [return Bank.bank_name] *)
Definition get_bank_name : MS value := fun s => (Return (s_bank_name s), s).
End Bank.

(** The module as the file leaves it, over the files [files]. *)
Definition session_start (files : gmap string string) : Session :=
  {| s_world := set_fs files (snd (module_classes initial_world));
     s_bank_name := VStr "National Bank";
     s_total_books := 0;
     s_reads := O |}.

(** ** [main], lines 744-777 *)

(** Lines 745-747. *)
Definition main_using_self : M unit :=
  print (nl +:+ "1. Using self") ;;
  let student := Student.__init__ (VStr "Alice") (VInt 95) in
  print (Student.display student).

(** Lines 755-758. *)
Definition main_public_members : M unit :=
  print (nl +:+ "3. Public Variables and Methods") ;;
  let car := Car.__init__ (VStr "Toyota") in
  print ("Car brand: " +:+ str (Car.brand car)) ;;
  print (Car.start car).

(** Lines 760-766; [bank1 = Bank()] and [bank2 = Bank()] build two objects
    without attributes of their own. *)
Definition main_class_variables : MS unit :=
  printS (nl +:+ "4. Class Variables and Class Methods") ;;;
  initial <~ Bank.get_bank_name ;;
  printS ("Initial bank name: " +:+ str initial) ;;;
  Bank.change_bank_name (VStr "New National Bank") ;;;
  updated <~ Bank.get_bank_name ;;
  printS ("Updated bank name: " +:+ str updated) ;;;
  same <~ Bank.get_bank_name ;;
  printS ("Same for all instances: " +:+ str same).

(** Lines 768-770. *)
Definition main_static : M unit :=
  print (nl +:+ "5. Static Variables and Static Methods") ;;
  print ("2 + 3 = " +:+ pretty (MathUtils.add 2 3)) ;;
  print ("PI value: " +:+ MathUtils.PI).

(** Lines 745-770: what [main] does before the demonstration of resource
    cleanup. *)
Definition main_before_772 : MS unit :=
  in_world main_using_self ;;;
  in_world main_using_cls ;;;
  in_world main_public_members ;;;
  main_class_variables ;;;
  in_world main_static.

(** [main]; the source stops after line 777, and [rest] stands for what
    follows. *)
Definition main (rest : MS unit) : MS unit :=
  main_before_772 ;;;
  in_world main_constructors_and_destructors ;;;
  printS (nl +:+ "7. Access Modifiers") ;;;
  rest.

(** What the specification says of the log file, for a run of [main] on
    the module over the files [files]: the logger is created in the run,
    and no log file is left by it. *)
Definition log_file_created_and_deleted (rest : MS unit)
    (files : gmap string string) : Prop :=
  let s' := snd (main rest (session_start files)) in
  In "Logger object created" (console (s_world s'))
  /\ fs (s_world s') !! "log.txt" = None.

(** ** All the vignettes *)

(** Each vignette as a script: it builds its own objects from the inputs
    given and returns what its methods return.  [Classic] are those of
    [run]. *)
Inductive demo :=
| Classic (v : vignette)
| PublicMembers (brand : value)
| ClassVariables (name : value)
| StaticMethods (a b : Z)
| AccessModifiers (name salary ssn : value)
| SuperFunction (name subject : value)
| AbstractClasses (width height : Z)
| AbstractShape
| InstanceMethods (name breed : value) (tricks : list value)
| ClassMethods (requests : list book_request)
| WaterFreezes (celsius : Q)
| Composition (brand capacity : value) (fuel_type : option value)
    (calls : list car_call)
| Aggregation (name : value) (employees : list nat) (calls : list dept_call)
| EmployeeDescription (name role : value)
| MethodResolution (method : string)
| FunctionDecorator (args : list value)
| TimingDecorator
| ClassDecorator (name : value)
| ComputedProperties (radius : Q) (assignments : list circle_assignment)
| PriceStatements (statements : list price_statement)
| CallableMultiplier (factor value : Z)
| CallableCounter (args : list value)
| CustomMessage (age : Z) (message : string)
| QueryFailure (query message : value)
| CountdownLoop (start : Z)
| SingletonQuery (args : list value) (kwargs : gmap string value)
    (sql : value).

Inductive answer :=
| AResult (r : result)
| AStr (s : string)
| AStrs (l : list string)
| AValue (v : value)
| AValues (l : list value)
| AInt (n : Z)
| AInts (l : list Z)
| ARat (q : Q)
| ABool (b : bool)
| AIds (l : list nat)
| APrice (o : outcome Z)
| APair (a b : answer).

(** The requests that create no book. *)
Definition book_fails (r : book_request) : bool := raises (fst (create_book r 0)).

(** The vignettes of [run] that do not look at the world, and the scripts
    that do not look at the session. *)
Definition world_free (v : vignette) : bool :=
  match v with
  | UsingCls | ConstructorsAndDestructors _ | Singleton _ _ => false
  | _ => true
  end.

Definition session_free (d : demo) : bool :=
  match d with
  | Classic v => world_free v
  | ClassVariables _ | ClassMethods _ | TimingDecorator
  | SingletonQuery _ _ _ => false
  | _ => true
  end.

(** The vignettes that touch no state shared between runs: all but the
    Logger, the calls of the decorated class whose arguments bind (they fill
    the cache), [Bank.change_bank_name], the creations of books of which one
    succeeds, and the timing decorator. *)
Definition stateless (d : demo) : bool :=
  match d with
  | Classic (ConstructorsAndDestructors _) => false
  | Classic (Singleton args kwargs) | SingletonQuery args kwargs _ =>
      match bind_arguments ["host"; "user"; "password"] args kwargs with
      | Some _ => false
      | None => true
      end
  | ClassVariables _ => false
  | ClassMethods requests => forallb book_fails requests
  | TimingDecorator => false
  | _ => true
  end.

(** What one run leaves to the next: the classes behind the global names,
    the instance the singleton has cached, the files and the two class
    variables.  Instances nothing refers to any more are not part of it. *)
Definition cached (w : World) : option instance :=
  match instances w !! cls with
  | Some a => heap w !! a
  | None => None
  end.

Definition shared_state (s : Session)
  : gmap string nat * list class_obj * option instance * gmap string string
    * value * Z :=
  (globals (s_world s), classes (s_world s), cached (s_world s),
   fs (s_world s), s_bank_name s, s_total_books s).

(** The world of a session whose module is the one of the file. *)
Definition module_loaded (w : World) : Prop :=
  globals w = globals (snd (module_classes initial_world))
  /\ classes w = classes (snd (module_classes initial_world))
  /\ forall a, instances w !! cls = Some a ->
               exists host user password,
                 heap w !! a = Some (IDatabaseConnection host user password).

Section Builtins.

(** Python's [repr], the type of what [time.time()] returns, its successive
    readings, and the text of [f"{end_time - start_time:.6f}"]. *)
Variable repr : value -> string.
Variable timestamp : Type.
Variable clock : nat -> timestamp.
Variable elapsed : timestamp -> timestamp -> string.

(** [f"{args}"] for the tuple of the positional arguments. *)
Definition tuple_repr (args : list value) : string :=
  match args with
  | [] => "()"
  | [x] => "(" +:+ repr x +:+ ",)"
  | x :: xs =>
      "(" +:+ repr x
      +:+ foldr (fun y rest => ", " +:+ repr y +:+ rest) ")" xs
  end.

(** The wrapper [log_function_call] returns, for a call with positional
    arguments only (so [kwargs] is the empty dict). *)
Definition log_function_call (name : string)
    (func : list value -> outcome string) (args : list value) : M string :=
  print ("Function " +:+ name +:+ " is being called with args: "
         +:+ tuple_repr args +:+ ", kwargs: {}") ;;
  result <- lift (func args) ;;
  print ("Function " +:+ name +:+ " returned: " +:+ result) ;;
  ret result.

(** [time.time()] *)
Definition time_time : MS timestamp :=
  fun s =>
    (Return (clock (s_reads s)),
     {| s_world := s_world s; s_bank_name := s_bank_name s;
        s_total_books := s_total_books s; s_reads := S (s_reads s) |}).

(** [slow_function] before decoration: [time.sleep(1)] lets time pass. *)
Definition slow_function : MS string := retS "Function completed".

(** The wrapper [timing_decorator] returns for [slow_function]. *)
Definition timed_slow_function : MS string :=
  start_time <~ time_time ;;
  result <~ slow_function ;;
  end_time <~ time_time ;;
  printS ("slow_function took " +:+ elapsed start_time end_time
          +:+ " seconds to run") ;;;
  retS result.

Definition perform (d : demo) : MS answer :=
  match d with
  | Classic v => r <~ in_world (run v) ;; retS (AResult r)
  | PublicMembers brand => retS (AStr (Car.start (Car.__init__ brand)))
  | ClassVariables name =>
      Bank.change_bank_name name ;;;
      n <~ Bank.get_bank_name ;;
      retS (AValue n)
  | StaticMethods a b =>
      retS (APair (AInt (MathUtils.add a b))
              (APair (AInt (MathUtils.multiply a b)) (AStr MathUtils.PI)))
  | AccessModifiers name salary ssn =>
      let e := Employee.__init__ name salary ssn in
      retS (APair (AValue (Employee.get_salary e))
              (APair (ABool (Employee.has_ssn e))
                 (AStrs [Employee._protected_method e;
                         Employee._Employee__private_method e])))
  | SuperFunction name subject =>
      retS (AStr (Teacher.get_info (Teacher.__init__ name subject)))
  | AbstractClasses width height =>
      let r := Rectangle.__init__ width height in
      retS (APair (AInt (Rectangle.area r))
              (APair (AInt (Rectangle.perimeter r))
                 (AStr (Rectangle.describe r))))
  | AbstractShape => _ <~ liftS Shape.__init__ ;; retS (AStrs [])
  | InstanceMethods name breed tricks =>
      let '(learned, dog) := learn_tricks (Dog.__init__ name breed) tricks in
      retS (APair (AStrs (Dog.bark dog :: Dog.describe dog :: learned))
              (AValues (Dog.tricks dog)))
  | ClassMethods requests =>
      fun s =>
        let '(books, n) := create_books requests (s_total_books s) in
        (Return (APair (AInt (Z.of_nat (created books)))
                   (AInt (Book.get_total_books n))),
         {| s_world := s_world s; s_bank_name := s_bank_name s;
            s_total_books := n; s_reads := s_reads s |})
  | WaterFreezes celsius =>
      retS (ABool (TemperatureConverter.is_freezing celsius))
  | Composition brand capacity fuel_type calls =>
      let '(messages, car) :=
        drive (CarWithEngine.__init__ brand capacity fuel_type) calls in
      retS (APair (AStrs messages)
              (APair (AInt (CarWithEngine.speed car))
                 (AValue (CarWithEngine.get_engine_capacity car))))
  | Aggregation name employees calls =>
      retS (AIds (Department.list_employees
                    (dept_calls (Department.__init__ name employees) calls)))
  | EmployeeDescription name role =>
      retS (AStr (EmployeeForDept.describe (EmployeeForDept.__init__ name role)))
  | MethodResolution method =>
      r <~ liftS (Diamond.call Diamond.D method) ;; retS (AStr r)
  | FunctionDecorator args =>
      r <~ in_world (log_function_call "say_hello" say_hello args) ;;
      retS (AStr r)
  | TimingDecorator => r <~ timed_slow_function ;; retS (AStr r)
  | ClassDecorator name =>
      retS (AStr (PersonWithGreeting.greet (PersonWithGreeting.__init__ name)))
  | ComputedProperties radius assignments =>
      let c := circle_assign (Circle.__init__ radius) assignments in
      retS (APair (ARat (Circle.radius c))
              (APair (ARat (Circle.diameter c)) (ARat (Circle_area c))))
  | PriceStatements statements =>
      fun s =>
        let '(p, w) := price_steps Product.__init__ statements (s_world s) in
        (Return (APrice (Product.price p)), set_world w s)
  | CallableMultiplier factor value =>
      retS (AInt (Multiplier.__call__ (Multiplier.__init__ factor) value))
  | CallableCounter args =>
      let '(returned, c) := counter_calls Counter.__init__ args in
      retS (APair (AInts returned) (AValues (Counter.get_values c)))
  | CustomMessage age message =>
      retS (AStr (InvalidAgeError.__str__
                    (InvalidAgeError.__init__ age (Some message))))
  | QueryFailure query message =>
      retS (AStr (QueryError.__str__ (QueryError.__init__ query message)))
  | CountdownLoop start =>
      match countdown_list (S (Z.to_nat (start + 1)))
              (Countdown.__init__ start) with
      | Some (o, _) => l <~ liftS o ;; retS (AInts l)
      | None => retS (AInts [])
      end
  | SingletonQuery args kwargs sql =>
      r <~ in_world (self <- get_instance args kwargs ;;
                     DatabaseConnection.query self sql) ;;
      retS (AStr r)
  end.

(** The sessions a run can be in: the module as loaded, over any files,
    and then any vignettes with any inputs. *)
Inductive reachable : Session -> Prop :=
| reachable_start (files : gmap string string) :
    reachable (session_start files)
| reachable_perform (d : demo) (s : Session) :
    reachable s -> reachable (snd (perform d s)).

(** Printing is the only effect of [d] in the session [s]: what is shared
    stays as it is, and the console only grows. *)
Definition only_prints (d : demo) (s : Session) : Prop :=
  let s' := snd (perform d s) in
  shared_state s' = shared_state s
  /\ exists out, console (s_world s') = (console (s_world s) ++ out)%list.

(** Running [d] a second time returns and prints the same as the first
    time. *)
Definition repeatable (d : demo) (s : Session) : Prop :=
  let '(r1, s1) := perform d s in
  let '(r2, s2) := perform d s1 in
  r1 = r2
  /\ printed (s_world s) (s_world s1) = printed (s_world s1) (s_world s2).

End Builtins.

(** * Properties *)

(** ** Strings *)

#[local] Arguments String.append !_ _ / : simpl nomatch.

Lemma append_nil_r (s : string) : s +:+ "" = s.
Proof. induction s as [|a s IH]; simpl; [reflexivity | by f_equal]. Qed.

Lemma append_assoc (s t u : string) : s +:+ (t +:+ u) = (s +:+ t) +:+ u.
Proof. induction s as [|a s IH]; simpl; [reflexivity | by f_equal]. Qed.

Lemma prefix_app (s t : string) : String.prefix s (s +:+ t) = true.
Proof.
  induction s as [|a s IH]; simpl.
  - by destruct t.
  - destruct (Ascii.ascii_dec a a) as [_|Hne]; [exact IH | by destruct Hne].
Qed.

Lemma str_contains_prefix (sub s : string) :
  String.prefix sub s = true -> str_contains sub s = true.
Proof. destruct s; simpl; intros ->; reflexivity. Qed.

Lemma str_contains_here (sub post : string) :
  str_contains sub (sub +:+ post) = true.
Proof. exact (str_contains_prefix _ _ (prefix_app sub post)). Qed.

Lemma str_contains_app (pre sub post : string) :
  str_contains sub (pre +:+ sub +:+ post) = true.
Proof.
  induction pre as [|a pre IH].
  - exact (str_contains_here sub post).
  - change (String a pre +:+ sub +:+ post)
      with (String a (pre +:+ sub +:+ post)).
    simpl. rewrite IH. apply orb_true_r.
Qed.

Lemma str_contains_end (pre sub : string) :
  str_contains sub (pre +:+ sub) = true.
Proof.
  rewrite <- (append_nil_r sub) at 2. apply str_contains_app.
Qed.

(** ** Student *)

(** C5: for every name and marks, [Student(name, marks).display()] contains
    [str(name)] and [str(marks)] verbatim. *)
Theorem display_contains_both_fields (name marks : value) :
  let s := Student.display (Student.__init__ name marks) in
  str_contains (str name) s = true /\ str_contains (str marks) s = true.
Proof.
  unfold Student.display, Student.__init__.
  cbn [Student.name Student.marks]. split.
  - exact (str_contains_app "Student: " (str name) (", Marks: " +:+ str marks)).
  - rewrite !append_assoc. apply str_contains_end.
Qed.

Example display_Alice :
  Student.display (Student.__init__ (VStr "Alice") (VInt 95))
  = "Student: Alice, Marks: 95".
Proof. reflexivity. Qed.

(** ** TemperatureConverter *)

(** C4: 0 degrees Celsius is 32 degrees Fahrenheit. *)
Theorem celsius_to_fahrenheit_0 :
  (TemperatureConverter.celsius_to_fahrenheit 0 == 32)%Q.
Proof. reflexivity. Qed.

(** C10: the two conversions are inverse to each other in exact
    arithmetic. *)
Theorem conversions_inverse (t : Q) :
  (TemperatureConverter.fahrenheit_to_celsius
     (TemperatureConverter.celsius_to_fahrenheit t) == t)%Q
  /\ (TemperatureConverter.celsius_to_fahrenheit
        (TemperatureConverter.fahrenheit_to_celsius t) == t)%Q.
Proof.
  unfold TemperatureConverter.fahrenheit_to_celsius,
    TemperatureConverter.celsius_to_fahrenheit.
  split; field.
Qed.

(** ** check_age *)

(** C2: [check_age] raises exactly below 18, the exception is an
    [InvalidAgeError] carrying the age, whose [str] contains the message and
    the age; from 18 on it returns [True]. *)
Theorem check_age_spec (age : Z) :
  (raises (check_age age) = true <-> age < 18)
  /\ (18 <= age -> check_age age = Return true)
  /\ (age < 18 ->
      exists e,
        check_age age = Raise (InvalidAge e)
        /\ InvalidAgeError.age e = age
        /\ str_contains (InvalidAgeError.message e) (InvalidAgeError.__str__ e) = true
        /\ str_contains (pretty age) (InvalidAgeError.__str__ e) = true).
Proof.
  unfold check_age. destruct (Z.ltb_spec age 18) as [Hlt|Hge]; cbn [raises].
  - split; [tauto|]. split; [lia|]. intros _.
    eexists; split; [reflexivity|]. split; [reflexivity|].
    unfold InvalidAgeError.__str__, InvalidAgeError.__init__.
    cbn [InvalidAgeError.message InvalidAgeError.age default].
    split.
    + apply str_contains_here.
    + rewrite append_assoc. apply str_contains_app.
  - split; [split; [discriminate | lia]|]. split; [reflexivity | lia].
Qed.

Lemma check_age_spec_witness :
  check_age 30 = Return true
  /\ exists e, check_age 17 = Raise (InvalidAge e)
               /\ InvalidAgeError.__str__ e = "Age must be 18 or older (got 17)".
Proof.
  split.
  - apply (check_age_spec 30). lia.
  - destruct (check_age_spec 17) as (_ & _ & H).
    destruct H as (e & He & _); [lia|].
    exists e. split; [exact He|].
    vm_compute in He. injection He as <-. reflexivity.
Defined.

(** ** Product *)

(** C6: assigning a negative price leaves the product as it was, prints the
    message and raises nothing; assigning any other price stores it. *)
Theorem set_price_spec (p : Product.t) (v : Z) (w : World) :
  (v < 0 ->
   Product.set_price p v w
   = (Return p, snd (print "Price cannot be negative" w)))
  /\ (0 <= v ->
      exists p', Product.set_price p v w = (Return p', w)
                 /\ Product.price p' = Return v).
Proof.
  unfold Product.set_price. destruct (Z.ltb_spec v 0) as [Hneg|Hpos].
  - split; [reflexivity | lia].
  - split; [lia|]. intros _. eexists. split; reflexivity.
Qed.

Lemma set_price_spec_witness :
  fst (Product.set_price Product.__init__ (-5) initial_world)
  = Return Product.__init__
  /\ exists p', Product.set_price Product.__init__ 100 initial_world
                = (Return p', initial_world)
                /\ Product.price p' = Return 100.
Proof.
  split.
  - destruct (set_price_spec Product.__init__ (-5) initial_world) as [H _].
    rewrite H; [reflexivity | lia].
  - destruct (set_price_spec Product.__init__ 100 initial_world) as [_ H].
    apply H. lia.
Defined.

(** ** The console *)

Lemma printed_app (w w' : World) (out : list string) :
  console w' = (console w ++ out)%list -> printed w w' = out.
Proof. unfold printed. intros ->. by rewrite drop_app_length. Qed.

(** ** Logger *)

Lemma file_close_open (path pending : string) (w : World) :
  file_close {| f_path := path; f_closed := false; f_pending := pending |} w
  = (Return {| f_path := path; f_closed := true; f_pending := "" |},
     set_fs (<[path := default "" (fs w !! path) +:+ pending]> (fs w)) w).
Proof. reflexivity. Qed.

Lemma main_constructors_and_destructors_fs (w : World) :
  fs (snd (main_constructors_and_destructors w))
  = <["log.txt" := default "" (fs w !! "log.txt")]> (fs w).
Proof.
  unfold main_constructors_and_destructors, Logger.__init__, Logger.destroy,
    Logger.close_if_present, open_append, bind, print, add_console, ret.
  cbn [fs console classes globals heap instances Logger.log_file].
  destruct (fs w !! "log.txt") as [c|] eqn:E;
    cbn [fs console classes globals heap instances Logger.log_file
         file_close f_closed f_path f_pending set_fs snd default].
  - rewrite E. cbn [default]. by rewrite append_nil_r.
  - rewrite lookup_insert_eq. cbn [default].
    by rewrite insert_insert_eq.
Qed.

(** ** The two Counter classes *)

(** C1, on the module as it is: the name [Counter] is bound a second time at
    line 628, so the three constructions of [main] build instances of that
    second class and [Counter.get_count()] is an [AttributeError]. *)
Theorem main_using_cls_raises :
  let '(r, w) := (module_classes ;; main_using_cls) initial_world in
  r = Raise (AttributeError "Counter" "get_count")
  /\ globals w !! "Counter" = Some 1%nat
  /\ classes w = [Counter_30; Counter_628]
  /\ heap w = [ICallableCounter 1 0 []; ICallableCounter 1 0 [];
               ICallableCounter 1 0 []].
Proof. vm_compute. repeat split; reflexivity. Qed.

(** Line 38 names [Counter] too: once the module is loaded, even the class
    object of lines 30-45 cannot be constructed, as the [Counter] it
    increments has no [count]. *)
Example first_Counter_is_shadowed :
  fst ((module_classes ;; construct 0) initial_world)
  = Raise (AttributeError "Counter" "count").
Proof. vm_compute. reflexivity. Qed.

(** With the class of lines 30-45 alone bound to [Counter], the same
    statements count the three constructions, on the class and on every
    instance. *)
Lemma first_Counter_counts_three :
  fst ((class_statement Counter_30 ;; main_using_cls) initial_world) = Return 3
  /\ fst ((class_statement Counter_30 ;; three_counters_by_instance)
            initial_world) = Return (3, 3, 3).
Proof. split; vm_compute; reflexivity. Qed.

(** ** CustomRange against the built-in range *)

Lemma range_items_S (start step : Z) (n : nat) :
  range_items start step (S n) = start :: range_items (start + step) step n.
Proof.
  unfold range_items. cbn [seq map].
  f_equal; [lia|].
  rewrite <- seq_shift, map_map.
  apply map_ext. intros i. lia.
Qed.

Lemma range_len_nonneg (start stop step : Z) :
  0 <= range_len start stop step.
Proof.
  unfold range_len.
  destruct (Z.gtb_spec step 0), (Z.ltb_spec start stop),
    (Z.ltb_spec stop start); try lia.
  all: match goal with
       | |- 0 <= ?a / ?b + 1 =>
           pose proof (Z_div_nonneg_nonneg a b); lia
       end.
Qed.

(** One more item while [stop] is not reached, going up. *)
Lemma range_len_up (cur stop step : Z) :
  0 < step -> cur < stop ->
  range_len cur stop step = 1 + range_len (cur + step) stop step.
Proof.
  intros Hstep Hlt. unfold range_len.
  destruct (Z.gtb_spec step 0); [|lia].
  destruct (Z.ltb_spec cur stop); [|lia].
  destruct (Z.ltb_spec (cur + step) stop).
  - replace (stop - cur - 1) with ((stop - (cur + step) - 1) + 1 * step) by lia.
    rewrite Z.div_add by lia. lia.
  - rewrite Z.div_small by lia. lia.
Qed.

(** One more item while [stop] is not reached, going down. *)
Lemma range_len_down (cur stop step : Z) :
  step < 0 -> stop < cur ->
  range_len cur stop step = 1 + range_len (cur + step) stop step.
Proof.
  intros Hstep Hlt. unfold range_len.
  destruct (Z.gtb_spec step 0); [lia|].
  destruct (Z.ltb_spec stop cur); [|lia].
  destruct (Z.ltb_spec stop (cur + step)).
  - replace (cur - stop - 1)
      with (((cur + step) - stop - 1) + 1 * (- step)) by lia.
    rewrite Z.div_add by lia. lia.
  - rewrite Z.div_small by lia. lia.
Qed.

(** No item once [stop] is reached. *)
Lemma range_len_done (cur stop step : Z) :
  ((step >? 0) && (cur <? stop)) || ((step <? 0) && (cur >? stop)) = false ->
  step <> 0 ->
  range_len cur stop step = 0.
Proof.
  intros H Hne. unfold range_len.
  destruct (Z.gtb_spec step 0), (Z.ltb_spec cur stop), (Z.ltb_spec step 0),
    (Z.gtb_spec cur stop), (Z.ltb_spec stop cur);
    simpl in H; try discriminate; try lia; reflexivity.
Qed.

Lemma iterate_range_items (fuel : nat) (cur stop step : Z) :
  step <> 0 ->
  (Z.to_nat (range_len cur stop step) < fuel)%nat ->
  iterate fuel (CustomRangeIterator.__init__ cur stop step)
  = Some (Return (range_items cur step (Z.to_nat (range_len cur stop step)))).
Proof.
  intros Hne. revert cur.
  induction fuel as [|fuel IH]; intros cur Hfuel; [lia|].
  cbn [iterate]. unfold CustomRangeIterator.__next__, CustomRangeIterator.__init__.
  cbn [CustomRangeIterator.current CustomRangeIterator.stop
       CustomRangeIterator.step].
  destruct (((step >? 0) && (cur <? stop)) || ((step <? 0) && (cur >? stop)))
    eqn:Hcond.
  - assert (Hlen : range_len cur stop step
                   = 1 + range_len (cur + step) stop step).
    { apply orb_true_iff in Hcond as [H|H];
        apply andb_true_iff in H as [H1 H2].
      - apply range_len_up; lia.
      - apply range_len_down; lia. }
    pose proof (range_len_nonneg (cur + step) stop step) as Hnn.
    assert (Hnat : Z.to_nat (range_len cur stop step)
                   = S (Z.to_nat (range_len (cur + step) stop step))) by lia.
    fold (CustomRangeIterator.__init__ (cur + step) stop step).
    rewrite IH by lia.
    by rewrite Hnat, range_items_S.
  - rewrite (range_len_done _ _ _ Hcond Hne). reflexivity.
Qed.

(** C9: for a step other than 0, iterating [CustomRange(start, stop, step)]
    ends, and yields the items of [range(start, stop, step)] in order. *)
Theorem CustomRange_yields_range (start stop step : Z) (fuel : nat) :
  step <> 0 ->
  (Z.to_nat (range_len start stop step) < fuel)%nat ->
  exists items,
    builtin_range start stop step = Return items
    /\ to_list fuel (CustomRange.__init__ start stop (Some step))
       = Some (Return items).
Proof.
  intros Hne Hfuel. unfold builtin_range.
  destruct (Z.eqb_spec step 0) as [|_]; [contradiction|].
  eexists. split; [reflexivity|].
  unfold to_list, CustomRange.__iter__, CustomRange.__init__,
    CustomRangeIterator.__iter__.
  cbn [CustomRange.start CustomRange.stop CustomRange.step default].
  by rewrite iterate_range_items.
Qed.

Lemma CustomRange_yields_range_witness :
  builtin_range 10 1 (-3) = Return [10; 7; 4]
  /\ to_list 4 (CustomRange.__init__ 10 1 (Some (-3)))
     = Some (Return [10; 7; 4]).
Proof.
  destruct (CustomRange_yields_range 10 1 (-3) 4) as (items & Hr & Hl).
  - lia.
  - vm_compute. lia.
  - vm_compute in Hr. injection Hr as <-. split; [reflexivity | exact Hl].
Defined.

(** The length of the built-in range is the number of indices whose item
    lies before [stop], as the language reference words it. *)
Lemma range_len_spec (start stop step i : Z) :
  step <> 0 -> 0 <= i ->
  (i < range_len start stop step
   <-> if step >? 0 then start + step * i < stop
       else start + step * i > stop).
Proof.
  intros Hne Hi. unfold range_len.
  destruct (Z.gtb_spec step 0) as [Hpos|Hneg].
  - destruct (Z.ltb_spec start stop) as [Hlt|Hge]; [|nia].
    pose proof (Z.div_mod (stop - start - 1) step ltac:(lia)) as Hdm.
    pose proof (Z.mod_pos_bound (stop - start - 1) step ltac:(lia)) as Hb.
    nia.
  - destruct (Z.ltb_spec stop start) as [Hlt|Hge]; [|nia].
    pose proof (Z.div_mod (start - stop - 1) (- step) ltac:(lia)) as Hdm.
    pose proof (Z.mod_pos_bound (start - stop - 1) (- step) ltac:(lia)) as Hb.
    nia.
Qed.

Lemma range_len_le_distance (start stop step : Z) :
  step <> 0 -> range_len start stop step <= Z.abs (stop - start).
Proof.
  intros Hne. unfold range_len.
  destruct (Z.gtb_spec step 0) as [Hpos|Hneg].
  - destruct (Z.ltb_spec start stop) as [Hlt|Hge]; [|lia].
    pose proof (Z.div_mod (stop - start - 1) step ltac:(lia)) as Hdm.
    pose proof (Z.mod_pos_bound (stop - start - 1) step ltac:(lia)) as Hb.
    nia.
  - destruct (Z.ltb_spec stop start) as [Hlt|Hge]; [|lia].
    pose proof (Z.div_mod (start - stop - 1) (- step) ltac:(lia)) as Hdm.
    pose proof (Z.mod_pos_bound (start - stop - 1) (- step) ltac:(lia)) as Hb.
    nia.
Qed.

(** [enough_fuel] is enough, whatever the step. *)
Lemma to_list_enough_fuel (r : CustomRange.t) :
  is_Some (to_list (enough_fuel r) r).
Proof.
  destruct r as [start stop step].
  destruct (Z.eq_dec step 0) as [->|Hne].
  - eexists. reflexivity.
  - unfold to_list, CustomRange.__iter__, CustomRangeIterator.__iter__.
    cbn [CustomRange.start CustomRange.stop CustomRange.step].
    rewrite iterate_range_items; [by eexists | done |].
    unfold enough_fuel. cbn [CustomRange.start CustomRange.stop].
    pose proof (range_len_le_distance start stop step Hne).
    pose proof (range_len_nonneg start stop step). lia.
Qed.

(** ** The singleton cache *)

Lemma get_instance_cached (args : list value) (kwargs : gmap string value)
    (w : World) (a : nat) :
  instances w !! cls = Some a -> get_instance args kwargs w = (Return a, w).
Proof.
  intros H. unfold get_instance, bind, ret. rewrite H. by rewrite H.
Qed.

Lemma get_instance_first (args : list value) (kwargs : gmap string value)
    (host user password : value) (w : World) :
  instances w !! cls = None ->
  bind_arguments ["host"; "user"; "password"] args kwargs
  = Some [host; user; password] ->
  get_instance args kwargs w
  = (Return (length (heap w)), first_call_world host user password w).
Proof.
  intros Hnone Hbind.
  unfold get_instance, bind, DatabaseConnection.__init__.
  rewrite Hnone, Hbind.
  unfold first_call_world, alloc, bind, print, add_console, ret,
    set_instances, set_heap.
  cbn [instances heap console classes globals fs].
  by rewrite lookup_insert_eq.
Qed.

(** A call that cannot bind its arguments while the cache is empty raises
    and caches nothing. *)
Lemma get_instance_bad_arguments (args : list value)
    (kwargs : gmap string value) (w : World) :
  instances w !! cls = None ->
  bind_arguments ["host"; "user"; "password"] args kwargs = None ->
  get_instance args kwargs w = (Raise TypeError, w).
Proof.
  intros Hnone Hbind.
  unfold get_instance, bind, DatabaseConnection.__init__.
  by rewrite Hnone, Hbind.
Qed.

Lemma calls_cached (rest : list (list value * gmap string value))
    (w : World) (a : nat) :
  instances w !! cls = Some a ->
  calls rest w = (replicate (length rest) (Return a), w).
Proof.
  intros H. induction rest as [|[args kwargs] rest IH]; [reflexivity|].
  cbn [calls length replicate].
  by rewrite (get_instance_cached _ _ _ _ H), IH.
Qed.

Lemma calls_bad_arguments (bad rest : list (list value * gmap string value))
    (w : World) :
  instances w !! cls = None ->
  Forall (fun c => bind_arguments ["host"; "user"; "password"] c.1 c.2 = None)
         bad ->
  calls (bad ++ rest) w
  = ((replicate (length bad) (Raise TypeError) ++ fst (calls rest w))%list,
     snd (calls rest w)).
Proof.
  intros Hnone Hbad. induction Hbad as [|[args kwargs] bad Hc _ IH].
  - cbn [app length replicate]. by destruct (calls rest w).
  - cbn [app calls length replicate]. cbn [fst snd] in Hc.
    rewrite (get_instance_bad_arguments _ _ _ Hnone Hc), IH. reflexivity.
Qed.

(** C3: in every sequence of calls, the first call that binds [host],
    [user] and [password] creates the instance (the calls before it, if
    any, raised [TypeError] and created nothing), and every later call,
    whatever its arguments, returns that same instance; one instance is
    created in all, with the fields of that first call, and one connection
    message is printed. *)
Theorem singleton_returns_first_instance
    (bad : list (list value * gmap string value))
    (args : list value) (kwargs : gmap string value)
    (host user password : value)
    (rest : list (list value * gmap string value)) (w : World) :
  instances w !! cls = None ->
  Forall (fun c => bind_arguments ["host"; "user"; "password"] c.1 c.2 = None)
         bad ->
  bind_arguments ["host"; "user"; "password"] args kwargs
  = Some [host; user; password] ->
  let a := length (heap w) in
  let '(results, w') := calls (bad ++ (args, kwargs) :: rest) w in
  results = (replicate (length bad) (Raise TypeError)
             ++ replicate (S (length rest)) (Return a))%list
  /\ heap w' = (heap w ++ [IDatabaseConnection host user password])%list
  /\ heap w' !! a = Some (IDatabaseConnection host user password)
  /\ instances w' !! cls = Some a
  /\ printed w w' = ["Connecting to database at " +:+ str host].
Proof.
  intros Hnone Hbad Hbind a.
  rewrite (calls_bad_arguments _ _ _ Hnone Hbad).
  cbn [calls].
  rewrite (get_instance_first _ _ _ _ _ _ Hnone Hbind).
  assert (Hc : instances (first_call_world host user password w) !! cls
               = Some a).
  { unfold first_call_world, set_instances. cbn [instances].
    apply lookup_insert_eq. }
  rewrite (calls_cached rest _ a Hc). cbn [fst snd].
  split; [reflexivity|]. split; [reflexivity|].
  split; [|split; [exact Hc|]].
  - unfold first_call_world, set_instances, set_heap, add_console.
    cbn [heap]. subst a.
    by rewrite lookup_app_r, Nat.sub_diag by lia.
  - apply printed_app. reflexivity.
Qed.

Lemma singleton_returns_first_instance_witness :
  fst (calls [([], ∅);
              ([VStr "localhost"], {[ "user" := VStr "admin";
                                      "password" := VStr "secret" ]});
              ([VStr "remote"; VStr "guest"; VStr "none"], ∅);
              ([], ∅)] initial_world)
  = [Raise TypeError; Return 0%nat; Return 0%nat; Return 0%nat]
  /\ heap (snd (calls [([], ∅);
                       ([VStr "localhost"],
                        {[ "user" := VStr "admin";
                           "password" := VStr "secret" ]});
                       ([VStr "remote"; VStr "guest"; VStr "none"], ∅);
                       ([], ∅)] initial_world))
     = [IDatabaseConnection (VStr "localhost") (VStr "admin") (VStr "secret")].
Proof.
  pose proof (singleton_returns_first_instance
                [([], ∅)]
                [VStr "localhost"]
                {[ "user" := VStr "admin"; "password" := VStr "secret" ]}
                (VStr "localhost") (VStr "admin") (VStr "secret")
                [([VStr "remote"; VStr "guest"; VStr "none"], ∅); ([], ∅)]
                initial_world) as H.
  cbv zeta in H. cbn [app] in H.
  destruct (calls _ initial_world) as [results w'].
  destruct H as (Hr & Hh & _).
  - reflexivity.
  - repeat constructor.
  - vm_compute. reflexivity.
  - split; [exact Hr | exact Hh].
Defined.

(** * Further properties of the code *)

(** ** Countdown *)

(** X1: a loop over [Countdown(start)] ends and yields [start], [start-1],
    ..., [0] (nothing for a negative [start]), and leaves the object with
    [start] at [-1] (or as it was, when negative). *)
Theorem Countdown_yields_down_to_zero (start : Z) (fuel : nat) :
  (Z.to_nat (start + 1) < fuel)%nat ->
  countdown_list fuel (Countdown.__init__ start)
  = Some (Return (range_items start (-1) (Z.to_nat (start + 1))),
          Countdown.__init__ (Z.min start (-1))).
Proof.
  unfold countdown_list, Countdown.__iter__, Countdown.__init__.
  revert start. induction fuel as [|fuel IH]; intros start Hfuel; [lia|].
  cbn [countdown_loop]. unfold Countdown.__next__. cbn [Countdown.start].
  destruct (Z.geb_spec start 0) as [Hge|Hlt].
  - rewrite IH by lia.
    replace (Z.to_nat (start + 1)) with (S (Z.to_nat (start - 1 + 1))) by lia.
    rewrite range_items_S.
    replace (start + -1) with (start - 1) by lia.
    by replace (Z.min (start - 1) (-1)) with (Z.min start (-1)) by lia.
  - replace (Z.to_nat (start + 1)) with O by lia.
    by replace (Z.min start (-1)) with start by lia.
Qed.

Lemma Countdown_yields_down_to_zero_witness :
  countdown_list 5 (Countdown.__init__ 3)
  = Some (Return [3; 2; 1; 0], Countdown.__init__ (-1)).
Proof. apply (Countdown_yields_down_to_zero 3 5). vm_compute. lia. Defined.

(** X2: a [Countdown] is used up by one loop: whatever loop over it has
    ended, the next loop over the same object yields nothing. *)
Theorem Countdown_single_use (fuel fuel' : nat) (c c' : Countdown.t)
    (items : list Z) :
  countdown_list fuel c = Some (Return items, c') ->
  countdown_list (S fuel') c' = Some (Return [], c').
Proof.
  unfold countdown_list, Countdown.__iter__.
  revert c items. induction fuel as [|fuel IH]; intros c items H;
    [discriminate|].
  cbn [countdown_loop] in H. unfold Countdown.__next__ in H.
  destruct (Z.geb_spec (Countdown.start c) 0) as [Hge|Hlt].
  - destruct (countdown_loop fuel _) as [[[vs|e] c'']|] eqn:E;
      try discriminate.
    injection H as _ <-. exact (IH _ _ E).
  - injection H as _ <-.
    cbn [countdown_loop]. unfold Countdown.__next__.
    destruct (Z.geb_spec (Countdown.start c) 0); [lia | reflexivity].
Qed.

Lemma Countdown_single_use_witness :
  countdown_list 5 (Countdown.__init__ 3)
  = Some (Return [3; 2; 1; 0], Countdown.__init__ (-1))
  /\ countdown_list 1 (Countdown.__init__ (-1))
     = Some (Return [], Countdown.__init__ (-1)).
Proof.
  split; [reflexivity|].
  apply (Countdown_single_use 5 0 (Countdown.__init__ 3) _ [3; 2; 1; 0]).
  reflexivity.
Defined.

(** ** CustomRange: edge cases and contents *)

(** X3: with a step of 0, [CustomRange] yields nothing and ends at the first
    [__next__], where the built-in [range] raises [ValueError]. *)
Theorem CustomRange_zero_step_is_empty (start stop : Z) (fuel : nat) :
  to_list (S fuel) (CustomRange.__init__ start stop (Some 0))
  = Some (Return [])
  /\ raises (builtin_range start stop 0) = true.
Proof. split; reflexivity. Qed.

Lemma to_list_range_items (start stop step : Z) :
  step <> 0 ->
  to_list (enough_fuel (CustomRange.mk start stop step))
    (CustomRange.mk start stop step)
  = Some (Return (range_items start step
                    (Z.to_nat (range_len start stop step)))).
Proof.
  intros Hne.
  unfold to_list, CustomRange.__iter__, CustomRangeIterator.__iter__.
  cbn [CustomRange.start CustomRange.stop CustomRange.step].
  apply iterate_range_items; [done|].
  unfold enough_fuel. cbn [CustomRange.start CustomRange.stop].
  pose proof (range_len_le_distance start stop step Hne).
  pose proof (range_len_nonneg start stop step). lia.
Qed.

Lemma in_range_items (start stop step v : Z) :
  step <> 0 ->
  In v (range_items start step (Z.to_nat (range_len start stop step)))
  <-> exists i, 0 <= i /\ v = start + step * i
                /\ if step >? 0 then v < stop else v > stop.
Proof.
  intros Hne. unfold range_items. rewrite in_map_iff. split.
  - intros (n & <- & Hn). apply in_seq in Hn.
    exists (Z.of_nat n). split; [lia|]. split; [reflexivity|].
    apply (range_len_spec start stop step (Z.of_nat n) Hne); lia.
  - intros (i & Hi & -> & Hv).
    exists (Z.to_nat i). split; [f_equal; lia|].
    apply in_seq.
    apply (range_len_spec start stop step i Hne Hi) in Hv. lia.
Qed.

(** X4: for a step other than 0, the values a loop over
    [CustomRange(start, stop, step)] yields are exactly the
    [start + step*i], [i >= 0], that lie before [stop] in the direction of
    the step. *)
Theorem CustomRange_contents (start stop step : Z) :
  step <> 0 ->
  exists items,
    to_list (enough_fuel (CustomRange.__init__ start stop (Some step)))
      (CustomRange.__init__ start stop (Some step))
    = Some (Return items)
    /\ forall v,
         In v items
         <-> exists i, 0 <= i /\ v = start + step * i
                       /\ if step >? 0 then v < stop else v > stop.
Proof.
  intros Hne. eexists. split.
  - apply (to_list_range_items start stop step Hne).
  - intros v. apply in_range_items, Hne.
Qed.

Lemma CustomRange_contents_witness :
  exists items,
    to_list 10 (CustomRange.__init__ 10 1 (Some (-3))) = Some (Return items)
    /\ (In 4 items <-> exists i, 0 <= i /\ 4 = 10 + -3 * i /\ 4 > 1).
Proof.
  destruct (CustomRange_contents 10 1 (-3)) as (items & H & Hin); [lia|].
  exists items. split; [exact H | exact (Hin 4)].
Defined.

(** X5: without a step, [CustomRange(start, stop)] yields exactly the
    integers from [start] up to, and without, [stop]. *)
Theorem CustomRange_default_step (start stop : Z) :
  exists items,
    to_list (enough_fuel (CustomRange.__init__ start stop None))
      (CustomRange.__init__ start stop None)
    = Some (Return items)
    /\ forall v, In v items <-> start <= v < stop.
Proof.
  eexists. split.
  - apply (to_list_range_items start stop 1). lia.
  - intros v. rewrite (in_range_items start stop 1 v) by lia.
    cbn [Z.gtb Z.compare]. split.
    + intros (i & Hi & -> & Hv). lia.
    + intros Hv. exists (v - start). lia.
Qed.

(** ** The callable Counter *)

(** X6: successive calls return consecutive numbers; afterwards [count] has
    grown by the number of calls and [values] by the arguments other than
    [None], in call order. *)
Theorem Counter_calls_count (self : Counter.t) (args : list value) :
  let '(returned, self') := counter_calls self args in
  returned = map (fun i => Counter.count self + 1 + Z.of_nat i)
                 (seq 0 (length args))
  /\ Counter.count self' = Counter.count self + Z.of_nat (length args)
  /\ Counter.get_values self'
     = (Counter.values self ++ filter (fun v => v <> VNone) args)%list.
Proof.
  revert self. induction args as [|a args IH]; intros self.
  - cbn. split; [reflexivity|]. split; [lia | by rewrite app_nil_r].
  - cbn [counter_calls]. unfold Counter.__call__.
    specialize (IH {| Counter.count := Counter.count self + 1;
                      Counter.values :=
                        match a with
                        | VNone => Counter.values self
                        | _ => (Counter.values self ++ [a])%list
                        end |}).
    destruct (counter_calls _ args) as [ns self''].
    cbn [Counter.count Counter.values] in IH.
    destruct IH as (Hns & Hc & Hv).
    split; [|split].
    + cbn [length seq map]. f_equal; [lia|].
      rewrite Hns, <- seq_shift, map_map. apply map_ext. intros i. lia.
    + rewrite Hc. cbn [length]. lia.
    + rewrite Hv. destruct a; cbn [filter list_filter];
        repeat case_decide; try congruence;
        by rewrite <- ?app_assoc.
Qed.

(** ** Product: the price stays valid *)

(** X7: whatever prices are assigned and however often the price is
    deleted, a stored price is never negative. *)
Theorem price_never_negative (p : Product.t) (l : list price_statement)
    (w : World) :
  (forall v, Product._price p = Some v -> 0 <= v) ->
  forall v, Product._price (fst (price_steps p l w)) = Some v -> 0 <= v.
Proof.
  revert p w. induction l as [|s l IH]; intros p w Hp; [exact Hp|].
  cbn [price_steps].
  destruct (price_step p s w) as [p' w'] eqn:E.
  apply IH.
  destruct s as [value|]; cbn [price_step] in E.
  - unfold Product.set_price in E.
    destruct (Z.ltb_spec value 0).
    + injection E as <- _. exact Hp.
    + injection E as <- _. cbn. intros v [= <-]. lia.
  - unfold Product.del_price, bind, print in E.
    destruct (Product._price p) eqn:Ep; injection E as <- _.
    + cbn. discriminate.
    + intros v Hv. rewrite Ep in Hv. discriminate.
Qed.

Lemma price_never_negative_witness :
  Product._price
    (fst (price_steps Product.__init__
            [AssignPrice 7; AssignPrice (-3); DeletePrice; AssignPrice 2]
            initial_world))
  = Some 2
  /\ 0 <= 2.
Proof.
  split; [reflexivity|].
  apply (price_never_negative Product.__init__
           [AssignPrice 7; AssignPrice (-3); DeletePrice; AssignPrice 2]
           initial_world).
  - intros v [= <-]. lia.
  - reflexivity.
Defined.

(** X8: once the price is deleted, reading it and deleting it again raise
    [AttributeError] (the second deletion after printing its line); a
    non-negative assignment brings the price back, a negative one does
    not. *)
Theorem deleted_price (p : Product.t) (v0 v : Z) (w : World) :
  Product._price p = Some v0 ->
  exists p' w',
    Product.del_price p w = (Return p', w')
    /\ printed w w' = ["Deleting price"]
    /\ Product.price p' = Raise (AttributeError "Product" "_price")
    /\ Product.del_price p' w'
       = (Raise (AttributeError "Product" "_price"),
          add_console ["Deleting price"] w')
    /\ (0 <= v ->
        exists p'', fst (Product.set_price p' v w') = Return p''
                    /\ Product.price p'' = Return v)
    /\ (v < 0 ->
        exists p'', fst (Product.set_price p' v w') = Return p''
                    /\ Product.price p''
                       = Raise (AttributeError "Product" "_price")).
Proof.
  intros Hp. unfold Product.del_price, bind, print. rewrite Hp.
  do 2 eexists. split; [reflexivity|].
  split; [by apply printed_app|].
  split; [reflexivity|]. split; [reflexivity|].
  unfold Product.set_price.
  destruct (Z.ltb_spec v 0); split; intros ?; try lia;
    eexists; split; reflexivity.
Qed.

Lemma deleted_price_witness :
  exists p' w',
    Product.del_price Product.__init__ initial_world = (Return p', w')
    /\ Product.price p' = Raise (AttributeError "Product" "_price")
    /\ exists p'', fst (Product.set_price p' 5 w') = Return p''
                   /\ Product.price p'' = Return 5.
Proof.
  destruct (deleted_price Product.__init__ 0 5 initial_world)
    as (p' & w' & Hd & _ & Hr & _ & Hs & _); [reflexivity|].
  exists p', w'. split; [exact Hd|]. split; [exact Hr|].
  apply Hs. lia.
Defined.

(** ** Circle *)

(** X9: the setters keep a positive radius positive, whether the
    assignments succeed or raise. *)
Theorem radius_stays_positive (c : Circle.t) (l : list circle_assignment) :
  (0 < Circle.radius c)%Q -> (0 < Circle.radius (circle_assign c l))%Q.
Proof.
  revert c. induction l as [|a l IH]; intros c Hc; [exact Hc|].
  assert (Hset : forall v, (0 < Circle.radius (snd (Circle.set_radius c v)))%Q).
  { intros v. unfold Circle.set_radius.
    destruct (Qle_bool v 0) eqn:E; cbn [snd]; [exact Hc|].
    unfold Circle.radius. cbn [Circle._radius].
    apply Qnot_le_lt. intros Hle. apply Qle_bool_iff in Hle. congruence. }
  destruct a as [v|v]; cbn [circle_assign]; apply IH.
  - apply Hset.
  - unfold Circle.set_diameter. apply Hset.
Qed.

Lemma radius_stays_positive_witness :
  (0 < Circle.radius
         (circle_assign (Circle.__init__ 5)
            [AssignRadius (-1); AssignDiameter 3; AssignDiameter 0]))%Q.
Proof. apply (radius_stays_positive (Circle.__init__ 5)). reflexivity. Defined.

(** ** Book *)

Lemma split_length (sep : Ascii.ascii) (s : string) :
  length (split sep s) = S (count_char sep s).
Proof.
  induction s as [|c s IH]; [reflexivity|].
  cbn [split count_char]. destruct (Ascii.eqb c sep).
  - cbn [length]. by rewrite IH.
  - destruct (split sep s); [discriminate | exact IH].
Qed.

Lemma split_without (sep : Ascii.ascii) (s : string) :
  count_char sep s = O -> split sep s = [s].
Proof.
  induction s as [|c s IH]; [reflexivity|].
  cbn [split count_char]. destruct (Ascii.eqb c sep); [discriminate|].
  intros H. by rewrite (IH H).
Qed.

Lemma split_at_first (sep : Ascii.ascii) (s t : string) :
  count_char sep s = O ->
  split sep (s +:+ String sep t) = s :: split sep t.
Proof.
  induction s as [|c s IH]; intros H.
  - cbn [String.append split]. by rewrite Ascii.eqb_refl.
  - cbn [count_char] in H. cbn [String.append split].
    destruct (Ascii.eqb c sep); [discriminate|].
    by rewrite (IH H).
Qed.

(** X11: [Book.from_string] gives back the two parts around the bar: for a
    title and an author without a bar, [from_string(title + "|" + author)]
    is the book [Book(title, author)], and one more book is counted. *)
Theorem from_string_round_trip (title author : string) (total_books : Z) :
  count_char bar title = O -> count_char bar author = O ->
  Book.from_string (title +:+ "|" +:+ author) total_books
  = (Return (Book.mk (VStr title) (VStr author)), total_books + 1).
Proof.
  intros Ht Ha. unfold Book.from_string.
  change ("|" +:+ author) with (String bar author).
  by rewrite (split_at_first bar title author Ht), (split_without bar author Ha).
Qed.

Lemma from_string_round_trip_witness :
  Book.from_string "Dune|Frank Herbert" 4
  = (Return (Book.mk (VStr "Dune") (VStr "Frank Herbert")), 5).
Proof.
  apply (from_string_round_trip "Dune" "Frank Herbert" 4); reflexivity.
Defined.

(** X12: [Book.from_string] raises [ValueError] exactly when the string
    does not hold one bar, and then no book is counted. *)
Theorem from_string_needs_one_bar (book_str : string) (total_books : Z) :
  (raises (fst (Book.from_string book_str total_books)) = true
   <-> count_char bar book_str <> 1%nat)
  /\ (count_char bar book_str <> 1%nat ->
      exists msg,
        Book.from_string book_str total_books
        = (Raise (ValueError msg), total_books)).
Proof.
  pose proof (split_length bar book_str) as Hlen.
  unfold Book.from_string.
  destruct (split bar book_str) as [|a [|b [|c l]]]; cbn [length] in Hlen.
  - lia.
  - split; [split; [lia | reflexivity] | eauto].
  - split; [split; [discriminate | lia] | lia].
  - split; [split; [lia | reflexivity] | eauto].
Qed.

Lemma from_string_needs_one_bar_witness :
  exists msg, Book.from_string "Dune" 4 = (Raise (ValueError msg), 4).
Proof.
  destruct (from_string_needs_one_bar "Dune" 4) as [_ H].
  apply H. vm_compute. lia.
Defined.

(** X13: [total_books] counts the books created: after any sequence of
    constructions, by [Book(...)], [create_anonymous_book] or
    [from_string], it has grown by the number of those that returned a
    book. *)
Theorem total_books_counts_created (rs : list book_request) (total_books : Z) :
  let '(books, total_books') := create_books rs total_books in
  length books = length rs
  /\ Book.get_total_books total_books'
     = total_books + Z.of_nat (created books).
Proof.
  revert total_books. induction rs as [|r rs IH]; intros n.
  - cbn [create_books]. split; [reflexivity|].
    unfold Book.get_total_books, created. cbn. lia.
  - cbn [create_books].
    assert (Hr : snd (create_book r n)
                 = n + if raises (fst (create_book r n)) then 0 else 1).
    { destruct r as [t a|t|s]; try reflexivity.
      cbn [create_book]. unfold Book.from_string.
      destruct (split bar s) as [|x [|y [|z l]]];
        unfold Book.__init__, Book.increment_book_count;
        cbn [fst snd raises]; lia. }
    destruct (create_book r n) as [o n1]. cbn [fst snd] in Hr.
    specialize (IH n1). destruct (create_books rs n1) as [os n2].
    destruct IH as [Hl Hn]. split; [cbn [length]; by rewrite Hl|].
    unfold Book.get_total_books in *. rewrite Hn, Hr.
    unfold created. rewrite filter_cons.
    destruct o; cbn [raises]; case_decide; try congruence;
      cbn [length]; lia.
Qed.

(** ** CarWithEngine *)

(** X14: while the engine is off the car cannot gain speed: after any calls
    that do not start the engine, speed is what it was and the engine is
    still off. *)
Theorem no_speed_without_engine (car : CarWithEngine.t) (cs : list car_call) :
  Engine.running (CarWithEngine.engine car) = false ->
  forallb (fun c => negb (is_start c)) cs = true ->
  let car' := snd (drive car cs) in
  CarWithEngine.speed car' = CarWithEngine.speed car
  /\ Engine.running (CarWithEngine.engine car') = false.
Proof.
  revert car. induction cs as [|c cs IH]; intros car Hoff Hcs; [by split|].
  cbn [forallb] in Hcs. apply andb_true_iff in Hcs as [Hc Hcs].
  cbn [drive].
  destruct (car_step car c) as [m car1] eqn:E.
  assert (H1 : CarWithEngine.speed car1 = CarWithEngine.speed car
               /\ Engine.running (CarWithEngine.engine car1) = false).
  { destruct c as [| |amount]; [discriminate| |]; cbn [car_step] in E.
    - unfold CarWithEngine.stop_engine in E. cbn in E.
      injection E as _ <-. by split.
    - unfold CarWithEngine.accelerate in E. rewrite Hoff in E.
      injection E as _ <-. by split. }
  destruct H1 as [Hs Hr].
  specialize (IH car1 Hr Hcs).
  destruct (drive car1 cs) as [ms car2]. cbn [snd] in *.
  destruct IH as [IHs IHr]. split; [congruence | exact IHr].
Qed.

Lemma no_speed_without_engine_witness :
  CarWithEngine.speed
    (snd (drive (CarWithEngine.__init__ (VStr "Toyota") (VInt 2) None)
            [Accelerate 30; StopEngine; Accelerate 10]))
  = 0.
Proof.
  apply (no_speed_without_engine
           (CarWithEngine.__init__ (VStr "Toyota") (VInt 2) None)
           [Accelerate 30; StopEngine; Accelerate 10]); reflexivity.
Defined.

(** X15: with the engine running and no call stopping it, the speed after
    a sequence of calls is the speed before plus all the amounts
    accelerated by (a negative amount slows down, nothing bounds the
    speed). *)
Theorem speed_adds_up (car : CarWithEngine.t) (cs : list car_call) :
  Engine.running (CarWithEngine.engine car) = true ->
  Forall (fun c => c <> StopEngine) cs ->
  CarWithEngine.speed (snd (drive car cs))
  = CarWithEngine.speed car + foldr Z.add 0 (map amount_of cs).
Proof.
  intros Hon Hcs. revert car Hon.
  induction Hcs as [|c cs Hc _ IH]; intros car Hon; [cbn; lia|].
  cbn [drive].
  destruct (car_step car c) as [m car1] eqn:E.
  assert (H1 : CarWithEngine.speed car1 = CarWithEngine.speed car + amount_of c
               /\ Engine.running (CarWithEngine.engine car1) = true).
  { destruct c as [| |amount]; [|congruence|]; cbn [car_step] in E.
    - unfold CarWithEngine.start_engine in E. cbn in E.
      injection E as _ <-. cbn. split; [lia | reflexivity].
    - unfold CarWithEngine.accelerate in E. rewrite Hon in E.
      injection E as _ <-. cbn. by split. }
  destruct H1 as [Hs Hr].
  specialize (IH car1 Hr).
  destruct (drive car1 cs) as [ms car2]. cbn [snd] in *.
  rewrite IH, Hs. cbn [map foldr]. lia.
Qed.

Lemma speed_adds_up_witness :
  CarWithEngine.speed
    (snd (drive (snd (CarWithEngine.start_engine
                        (CarWithEngine.__init__ (VStr "Toyota") (VInt 2) None)))
            [Accelerate 30; Accelerate (-50)]))
  = -20.
Proof.
  apply (speed_adds_up
           (snd (CarWithEngine.start_engine
                   (CarWithEngine.__init__ (VStr "Toyota") (VInt 2) None)))
           [Accelerate 30; Accelerate (-50)]).
  - reflexivity.
  - repeat constructor; discriminate.
Defined.

(** ** Department *)

Lemma remove_first_app_absent (x : nat) (l : list nat) :
  x ∉ l -> remove_first x (l ++ [x]) = l.
Proof.
  induction l as [|y l IH]; intros Hx; cbn [app remove_first].
  - by rewrite Nat.eqb_refl.
  - apply not_elem_of_cons in Hx as [Hne Hx].
    destruct (Nat.eqb_spec y x); [congruence|].
    by rewrite (IH Hx).
Qed.

Lemma remove_first_app_present (x : nat) (l l' : list nat) :
  x ∈ l -> remove_first x (l ++ l') = (remove_first x l ++ l')%list.
Proof.
  induction l as [|y l IH]; intros Hx; [by apply elem_of_nil in Hx|].
  cbn [app remove_first]. destruct (Nat.eqb_spec y x); [reflexivity|].
  apply elem_of_cons in Hx as [Hx|Hx]; [congruence|].
  cbn [app]. by rewrite (IH Hx).
Qed.

(** X16: adding an employee and removing it again gives the department back
    only when the employee was not a member before; when it was, the
    earlier occurrence is the one removed and the new one stays at the
    end. *)
Theorem add_then_remove_employee (d : Department.t) (e : nat) :
  Department.list_employees
    (Department.remove_employee (Department.add_employee d e) e)
  = if bool_decide (e ∈ Department.employees d)
    then (remove_first e (Department.employees d) ++ [e])%list
    else Department.employees d.
Proof.
  unfold Department.remove_employee, Department.add_employee,
    Department.list_employees.
  cbn [Department.employees Department.name].
  rewrite bool_decide_eq_true_2 by (apply elem_of_app; right; by left).
  cbn [Department.employees].
  case_bool_decide as He.
  - by apply remove_first_app_present.
  - by apply remove_first_app_absent.
Qed.

Lemma count_occ_remove_first (x e : nat) (l : list nat) :
  count_occ Nat.eq_dec (remove_first e l) x
  = if bool_decide (x = e) then pred (count_occ Nat.eq_dec l x)
    else count_occ Nat.eq_dec l x.
Proof.
  induction l as [|y l IH]; cbn [remove_first count_occ].
  - by case_bool_decide.
  - destruct (Nat.eqb_spec y e) as [->|Hne].
    + destruct (Nat.eq_dec e x) as [->|Hx].
      * by rewrite bool_decide_eq_true_2.
      * by rewrite bool_decide_eq_false_2 by congruence.
    + cbn [count_occ]. rewrite IH.
      destruct (Nat.eq_dec y x) as [->|Hx]; [|reflexivity].
      by rewrite bool_decide_eq_false_2 by congruence.
Qed.


(** ** Logger: what reaches the file *)

Lemma log_all_open (path pending : string) (messages : list string)
    (w : World) :
  log_all (Logger.mk (Some (mkFile path false pending))) messages w
  = (Return (Logger.mk
               (Some (mkFile path false
                        (pending
                         +:+ foldr (fun m rest => m +:+ nl +:+ rest) ""
                               messages)))), w).
Proof.
  revert pending. induction messages as [|m ms IH]; intros pending.
  - cbn [log_all foldr]. by rewrite append_nil_r.
  - cbn [log_all foldr]. unfold Logger.log, bind, file_write, ret.
    cbn [Logger.log_file f_closed f_path f_pending].
    rewrite IH. by rewrite <- !append_assoc.
Qed.

(** X18: the messages logged between [Logger()] and [destroy()] end up in
    [log.txt], after what the file held before, in order and each followed
    by a newline; no other file changes. *)
Theorem logged_messages_reach_file (messages : list string) (w : World) :
  let '(r, w') := run (ConstructorsAndDestructors messages) w in
  r = Return RNone
  /\ fs w'
     = <["log.txt" := default "" (fs w !! "log.txt")
                      +:+ foldr (fun m rest => m +:+ nl +:+ rest) ""
                            messages]> (fs w).
Proof.
  cbn [run]. unfold Logger.__init__, open_append, bind, print, ret.
  rewrite log_all_open.
  unfold Logger.destroy, Logger.close_if_present, bind, print, ret.
  cbn [Logger.log_file]. rewrite file_close_open.
  split; [reflexivity|].
  unfold add_console, set_fs. cbn [fs f_path].
  change ("" +:+ foldr (fun m rest => m +:+ nl +:+ rest) "" messages)
    with (foldr (fun m rest => m +:+ nl +:+ rest) "" messages).
  destruct (fs w !! "log.txt") as [c|] eqn:E; cbn [fs].
  - by rewrite E.
  - by rewrite lookup_insert_eq, insert_insert_eq.
Qed.

(** X19: after [destroy()] the logger cannot log: [log] raises
    [ValueError] and nothing is written. *)
Theorem log_after_destroy_raises (f : file_obj) (message : string)
    (w : World) :
  exists logger w',
    Logger.destroy (Logger.mk (Some f)) w = (Return logger, w')
    /\ Logger.log logger message w'
       = (Raise (ValueError "I/O operation on closed file."), w').
Proof.
  destruct f as [path closed pending].
  unfold Logger.destroy, Logger.close_if_present, bind, file_close.
  cbn [Logger.log_file f_closed].
  destruct closed; do 2 eexists; (split; [reflexivity|]); reflexivity.
Qed.

(** X20: the destructor after [destroy()] closes nothing a second time and
    leaves every file as it is, but prints "Logger object destroyed"
    again. *)
Theorem del_after_destroy (f : file_obj) (w : World) :
  exists logger w',
    Logger.destroy (Logger.mk (Some f)) w = (Return logger, w')
    /\ Logger.__del__ logger w'
       = (Return logger, add_console ["Logger object destroyed"] w').
Proof.
  destruct f as [path closed pending].
  unfold Logger.destroy, Logger.close_if_present, bind, file_close.
  cbn [Logger.log_file f_closed].
  destruct closed; do 2 eexists; (split; [reflexivity|]); reflexivity.
Qed.

(** ** The singleton and its queries *)

(** X21: queries go to the host of the first connection: whatever host a
    later call of [DatabaseConnection] names, [query] on the instance it
    returns runs on the host given when the instance was made. *)
Theorem query_uses_first_host
    (args args' : list value) (kwargs kwargs' : gmap string value)
    (host user password sql : value) (w : World) :
  instances w !! cls = None ->
  bind_arguments ["host"; "user"; "password"] args kwargs
  = Some [host; user; password] ->
  exists first w1 second w2,
    get_instance args kwargs w = (Return first, w1)
    /\ get_instance args' kwargs' w1 = (Return second, w2)
    /\ second = first
    /\ DatabaseConnection.query second sql w2
       = (Return ("Executing " +:+ str sql +:+ " on " +:+ str host), w2).
Proof.
  intros Hnone Hbind.
  assert (Hc : instances (first_call_world host user password w) !! cls
               = Some (length (heap w))).
  { unfold first_call_world, set_instances. cbn [instances].
    apply lookup_insert_eq. }
  do 4 eexists.
  split; [exact (get_instance_first _ _ _ _ _ _ Hnone Hbind)|].
  split; [exact (get_instance_cached _ _ _ _ Hc)|].
  split; [reflexivity|].
  unfold DatabaseConnection.query, first_call_world, set_instances,
    add_console, set_heap.
  cbn [heap].
  by rewrite lookup_app_r, Nat.sub_diag by lia.
Qed.

Lemma query_uses_first_host_witness :
  exists first w1 second w2,
    get_instance [VStr "localhost"; VStr "admin"; VStr "secret"] ∅
      initial_world = (Return first, w1)
    /\ get_instance [VStr "remote"; VStr "guest"; VStr "none"] ∅ w1
       = (Return second, w2)
    /\ second = first
    /\ DatabaseConnection.query second (VStr "SELECT 1") w2
       = (Return "Executing SELECT 1 on localhost", w2).
Proof.
  apply (query_uses_first_host
           [VStr "localhost"; VStr "admin"; VStr "secret"]
           [VStr "remote"; VStr "guest"; VStr "none"] ∅ ∅
           (VStr "localhost") (VStr "admin") (VStr "secret")
           (VStr "SELECT 1") initial_world).
  - reflexivity.
  - vm_compute. reflexivity.
Defined.

(** ** The class-level Counter, on its own *)

Lemma construct_counts (w : World) (k : nat) (c : Z) :
  counts w k c ->
  exists w', construct k w = (Return (length (heap w)), w')
             /\ counts w' k (c + 1).
Proof.
  intros (Hg & co & Hk & Hm & Hc).
  unfold construct, class_getmethod, class_of, bind.
  rewrite Hk, Hm. cbn [ret].
  change (cls_methods Counter_30 !! "__init__") with (Some Counter_init_35).
  cbn [ret]. unfold alloc, load_global, class_getattr, class_setattr,
    class_of, bind, ret, set_heap.
  cbn [globals classes heap]. rewrite Hg.
  cbn [classes]. rewrite Hk. rewrite Hc. unfold raise.
  cbn [classes]. rewrite Hk.
  eexists. split; [reflexivity|].
  split; [exact Hg|]. eexists.
  unfold set_classes. cbn [classes].
  split; [apply list_lookup_insert_eq; by eapply lookup_lt_Some|].
  cbn [cls_methods cls_vars]. split; [exact Hm|].
  apply lookup_insert_eq.
Qed.

(** X23: bound to the name [Counter] on its own, the class of lines 30-45
    counts its constructions: [n] constructions raise the count read by
    [get_count] from [c] to [c + n]. *)
Theorem class_level_Counter_counts (w : World) (k : nat) (c : Z) (n : nat) :
  counts w k c ->
  exists w',
    constructs n w = (Return tt, w')
    /\ class_get_count k w' = (Return (c + Z.of_nat n), w').
Proof.
  revert w c. induction n as [|n IH]; intros w c Hw.
  - exists w. split; [reflexivity|].
    destruct Hw as (Hg & co & Hk & Hm & Hc).
    unfold class_get_count, class_getmethod, class_getattr, class_of, bind.
    rewrite Hk, Hm. cbn [ret].
    change (cls_methods Counter_30 !! "get_count")
      with (Some Counter_get_count_41).
    cbn [ret]. rewrite Hk, Hc. by replace (c + Z.of_nat 0) with c by lia.
  - destruct (construct_counts w k c Hw) as (w1 & Hcons & Hw1).
    destruct (IH w1 (c + 1) Hw1) as (w' & Hn & Hget).
    exists w'. split.
    + cbn [constructs]. unfold bind at 1, load_global.
      destruct Hw as (Hg & _). rewrite Hg.
      unfold bind at 1. rewrite Hcons. exact Hn.
    + rewrite Hget. do 2 f_equal. lia.
Qed.

Lemma class_level_Counter_counts_witness :
  exists w',
    constructs 3 (snd (class_statement Counter_30 initial_world))
    = (Return tt, w')
    /\ class_get_count 0 w' = (Return 3, w').
Proof.
  apply (class_level_Counter_counts
           (snd (class_statement Counter_30 initial_world)) 0 0 3).
  split; [reflexivity|].
  exists Counter_30. repeat split; reflexivity.
Defined.

(** * The demonstration routine and the log file *)

Lemma add_console_nil (w : World) : add_console [] w = w.
Proof. destruct w. unfold add_console. cbn. by rewrite app_nil_r. Qed.

Lemma add_console_app (out1 out2 : list string) (w : World) :
  add_console out2 (add_console out1 w) = add_console (out1 ++ out2) w.
Proof. unfold add_console. cbn. by rewrite app_assoc. Qed.

(** On the module of the file, section 2 of [main] builds three instances
    of the class of line 628 and stops at line 753. *)
Lemma main_using_cls_stops (w : World) :
  module_loaded w ->
  main_using_cls w
  = (Raise (AttributeError "Counter" "get_count"),
     set_heap (heap w ++ [ICallableCounter 1 0 []; ICallableCounter 1 0 [];
                          ICallableCounter 1 0 []])
       (add_console [nl +:+ "2. Using cls"] w)).
Proof.
  intros (Hg & Hc & _).
  destruct w as [con cl gl hp ins f]. cbn in Hg, Hc. subst gl cl.
  cbn [heap].
  replace (hp ++ [ICallableCounter 1 0 []; ICallableCounter 1 0 [];
                  ICallableCounter 1 0 []])%list
    with (((hp ++ [ICallableCounter 1 0 []]) ++ [ICallableCounter 1 0 []])
          ++ [ICallableCounter 1 0 []])%list
    by (by rewrite <- !app_assoc).
  vm_compute. reflexivity.
Qed.

(** As the file is, [main] ends at line 753, whatever follows it: it prints
    sections 1 and 2 and touches no file. *)
Lemma main_stops_at_753 (rest : MS unit) (files : gmap string string) :
  exists s',
    main rest (session_start files)
    = (Raise (AttributeError "Counter" "get_count"), s')
    /\ fs (s_world s') = files
    /\ console (s_world s')
       = [nl +:+ "1. Using self"; "Student: Alice, Marks: 95";
          nl +:+ "2. Using cls"].
Proof.
  eexists. split; [|split].
  - unfold main, main_before_772, bindS, in_world.
    unfold main_using_self, bind, print.
    cbn [s_world session_start set_world].
    rewrite main_using_cls_stops; [reflexivity|].
    split; [reflexivity|]. split; [reflexivity|].
    intros a Ha. vm_compute in Ha. discriminate.
  - reflexivity.
  - reflexivity.
Qed.


Lemma main_constructors_and_destructors_run (w : World) :
  exists logger w',
    main_constructors_and_destructors w = (Return logger, w')
    /\ fs w' = <["log.txt" := default "" (fs w !! "log.txt")]> (fs w)
    /\ console w'
       = (console w
          ++ [nl +:+ "6. Constructors and Destructors"; "Creating logger...";
              "Logger object created"; "Logger object destroyed"])%list.
Proof.
  pose proof (main_constructors_and_destructors_fs w) as Hfs.
  unfold main_constructors_and_destructors, Logger.__init__, Logger.destroy,
    Logger.close_if_present, open_append, bind, print, add_console, ret in *.
  cbn [fs console classes globals heap instances Logger.log_file] in *.
  destruct (fs w !! "log.txt");
    cbn [file_close f_closed f_path f_pending set_fs snd console fs] in *;
    do 2 eexists; (split; [reflexivity|]); cbn [fs console];
    (split; [exact Hfs | by rewrite <- !app_assoc]).
Qed.



(** * Which vignettes only print *)

Lemma add_console_S_nil (s : Session) : add_console_S [] s = s.
Proof.
  destruct s. unfold add_console_S, set_world. cbn.
  by rewrite add_console_nil.
Qed.

Lemma add_console_S_app (out1 out2 : list string) (s : Session) :
  add_console_S out2 (add_console_S out1 s) = add_console_S (out1 ++ out2) s.
Proof.
  unfold add_console_S, set_world. cbn. by rewrite add_console_app.
Qed.

(** The vignettes of [run] that do not look at the world return and print
    what their inputs fix. *)
Lemma run_world_free (v : vignette) :
  world_free v = true ->
  exists (r : outcome result) (out : list string),
    forall w, run v w = (r, add_console out w).
Proof.
  destruct v as [name marks| |messages|c|f|args kwargs|p|age|start stop step];
    try discriminate; intros _; cbn [run].
  - exists (Return (RStr (Student.display (Student.__init__ name marks)))),
      [Student.display (Student.__init__ name marks)].
    reflexivity.
  - eexists _, []. intros w. by rewrite add_console_nil.
  - eexists _, []. intros w. by rewrite add_console_nil.
  - unfold Product.set_price. destruct (p <? 0).
    + eexists _, ["Price cannot be negative"]. reflexivity.
    + eexists _, []. intros w. by rewrite add_console_nil.
  - unfold check_age. destruct (age <? 18);
      eexists _, []; intros w; by rewrite add_console_nil.
  - destruct (to_list _ _) as [[l|e]|];
      eexists _, []; intros w; by rewrite add_console_nil.
Qed.

Lemma price_steps_prints (p : Product.t) (l : list price_statement) :
  exists (p' : Product.t) (out : list string),
    forall w, price_steps p l w = (p', add_console out w).
Proof.
  revert p. induction l as [|s l IH]; intros p.
  - exists p, []. intros w. by rewrite add_console_nil.
  - assert (Hs : exists p1 out1,
               forall w, price_step p s w = (p1, add_console out1 w)).
    { destruct s as [v|]; cbn [price_step].
      - unfold Product.set_price. destruct (v <? 0).
        + exists p, ["Price cannot be negative"]. reflexivity.
        + eexists _, []. intros w. unfold ret. by rewrite add_console_nil.
      - unfold Product.del_price, bind, print.
        destruct (Product._price p);
          eexists _, ["Deleting price"]; reflexivity. }
    destruct Hs as (p1 & out1 & Hs).
    destruct (IH p1) as (p' & out & Hl).
    exists p', (out1 ++ out)%list. intros w.
    cbn [price_steps]. by rewrite Hs, Hl, add_console_app.
Qed.

Section Effects.

Variable repr : value -> string.
Variable timestamp : Type.
Variable clock : nat -> timestamp.
Variable elapsed : timestamp -> timestamp -> string.

Lemma log_function_call_prints (name : string)
    (func : list value -> outcome string) (args : list value) :
  exists (r : outcome string) (out : list string),
    forall w, log_function_call repr name func args w = (r, add_console out w).
Proof.
  unfold log_function_call, bind, lift, print, ret.
  destruct (func args) as [result|e].
  - eexists _, [_; _]. intros w. by rewrite add_console_app.
  - eexists _, [_]. reflexivity.
Qed.

(** The scripts that do not look at the session return and print what
    their inputs fix. *)
Lemma perform_session_free (d : demo) :
  session_free d = true ->
  exists (r : outcome answer) (out : list string),
    forall s, perform repr timestamp clock elapsed d s
              = (r, add_console_S out s).
Proof.
  intros Hd.
  destruct d as [v|brand|name|a b|name salary ssn|name subject|width height|
                 |name breed tricks|requests|celsius
                 |brand capacity fuel_type cs|name employees cs|name role
                 |method|args| |name|radius assignments|statements
                 |factor value|args|age message|query message|start
                 |args kwargs sql];
    try discriminate; cbn [perform session_free] in *;
    try (eexists _, []; intros s; by rewrite add_console_S_nil).
  - (* Classic *)
    destruct (run_world_free v Hd) as (r & out & Hrun).
    destruct r as [a|e].
    + exists (Return (AResult a)), out. intros s.
      unfold bindS, in_world. by rewrite Hrun.
    + exists (Raise e), out. intros s.
      unfold bindS, in_world. by rewrite Hrun.
  - (* InstanceMethods *)
    destruct (learn_tricks _ tricks).
    eexists _, []. intros s. by rewrite add_console_S_nil.
  - (* Composition *)
    destruct (drive _ cs).
    eexists _, []. intros s. by rewrite add_console_S_nil.
  - (* MethodResolution *)
    unfold bindS, liftS, retS.
    destruct (Diamond.call Diamond.D method);
      eexists _, []; intros s; by rewrite add_console_S_nil.
  - (* FunctionDecorator *)
    destruct (log_function_call_prints "say_hello" say_hello args)
      as (r & out & Hrun).
    destruct r as [a|e].
    + exists (Return (AStr a)), out. intros s.
      unfold bindS, in_world. by rewrite Hrun.
    + exists (Raise e), out. intros s.
      unfold bindS, in_world. by rewrite Hrun.
  - (* PriceStatements *)
    destruct (price_steps_prints Product.__init__ statements)
      as (p' & out & Hrun).
    exists (Return (APrice (Product.price p'))), out. intros s.
    by rewrite Hrun.
  - (* CallableCounter *)
    destruct (counter_calls _ args).
    eexists _, []. intros s. by rewrite add_console_S_nil.
  - (* CountdownLoop *)
    destruct (countdown_list _ _) as [[[l|e] c]|];
      eexists _, []; intros s; by rewrite add_console_S_nil.
Qed.

Lemma constant_only_prints (d : demo) (r : outcome answer)
    (out : list string) :
  (forall s, perform repr timestamp clock elapsed d s
             = (r, add_console_S out s)) ->
  forall s,
    only_prints repr timestamp clock elapsed d s
    /\ repeatable repr timestamp clock elapsed d s.
Proof.
  intros H s. unfold only_prints, repeatable.
  rewrite !H. cbn [snd]. split; [split|split].
  - reflexivity.
  - by exists out.
  - reflexivity.
  - rewrite !(printed_app _ _ out); reflexivity.
Qed.

End Effects.

(** ** The worlds a run goes through *)

Lemma module_loaded_add_console (out : list string) (w : World) :
  module_loaded w -> module_loaded (add_console out w).
Proof. intros H. exact H. Qed.

Lemma module_loaded_more_heap (extra : list instance) (w : World) :
  module_loaded w -> module_loaded (set_heap (heap w ++ extra) w).
Proof.
  intros (Hg & Hc & Hi). split; [exact Hg|]. split; [exact Hc|].
  intros a Ha. destruct (Hi a Ha) as (h & u & p & Hh).
  exists h, u, p. cbn [set_heap heap]. by apply lookup_app_l_Some.
Qed.

Lemma cached_more_heap (extra : list instance) (w : World) :
  module_loaded w -> cached (set_heap (heap w ++ extra) w) = cached w.
Proof.
  intros (_ & _ & Hi). unfold cached. cbn [set_heap instances heap].
  destruct (instances w !! cls) as [a|] eqn:E; [|reflexivity].
  destruct (Hi a eq_refl) as (h & u & p & Hh).
  rewrite Hh. by apply lookup_app_l_Some.
Qed.

(** What the Logger vignette does to the world. *)
Lemma run_logger (messages : list string) (w : World) :
  run (ConstructorsAndDestructors messages) w
  = (Return RNone,
     set_fs (<["log.txt" := default "" (fs w !! "log.txt")
                            +:+ foldr (fun m rest => m +:+ nl +:+ rest) ""
                                  messages]> (fs w))
       (add_console ["Logger object created"; "Logger object destroyed"] w)).
Proof.
  cbn [run]. unfold Logger.__init__, open_append, bind, print, ret.
  rewrite log_all_open.
  unfold Logger.destroy, Logger.close_if_present, bind, print, ret.
  cbn [Logger.log_file]. rewrite file_close_open.
  unfold add_console, set_fs. cbn [fs f_path console classes globals heap
                                   instances].
  change ("" +:+ foldr (fun m rest => m +:+ nl +:+ rest) "" messages)
    with (foldr (fun m rest => m +:+ nl +:+ rest) "" messages).
  destruct (fs w !! "log.txt") as [c|] eqn:E;
    cbn [fs console classes globals heap instances].
  - rewrite E. cbn [default]. by rewrite <- app_assoc.
  - rewrite lookup_insert_eq, insert_insert_eq. cbn [default].
    by rewrite <- app_assoc.
Qed.

Lemma bind_arguments_three (args : list value) (kwargs : gmap string value)
    (l : list value) :
  bind_arguments ["host"; "user"; "password"] args kwargs = Some l ->
  exists host user password, l = [host; user; password].
Proof.
  unfold bind_arguments. destruct (_ && _); [|discriminate].
  cbn [imap]. intros H.
  apply length_mapM in H. cbn [length] in H.
  destruct l as [|h [|u [|p [|x l]]]]; try discriminate. eauto.
Qed.

Lemma query_world (self : nat) (sql : value) (w : World) :
  snd (DatabaseConnection.query self sql w) = w.
Proof.
  unfold DatabaseConnection.query.
  by destruct (heap w !! self) as [[c|c n vs|h u p]|].
Qed.

Lemma get_then_query_world (args : list value) (kwargs : gmap string value)
    (sql : value) (w : World) :
  snd ((self <- get_instance args kwargs ;;
        DatabaseConnection.query self sql) w)
  = snd (get_instance args kwargs w).
Proof.
  unfold bind. destruct (get_instance args kwargs w) as [[a|e] w'];
    [apply query_world | reflexivity].
Qed.

Lemma get_instance_module_loaded (args : list value)
    (kwargs : gmap string value) (w : World) :
  module_loaded w -> module_loaded (snd (get_instance args kwargs w)).
Proof.
  intros Hs.
  destruct (instances w !! cls) as [a|] eqn:Hi.
  - by rewrite (get_instance_cached _ _ _ _ Hi).
  - destruct (bind_arguments ["host"; "user"; "password"] args kwargs)
      as [l|] eqn:Hb.
    + destruct (bind_arguments_three _ _ _ Hb) as (h & u & p & ->).
      rewrite (get_instance_first _ _ _ _ _ _ Hi Hb). cbn [snd].
      destruct Hs as (Hg & Hc & _).
      split; [exact Hg|]. split; [exact Hc|].
      intros a Ha. unfold first_call_world, set_instances in *.
      cbn [instances heap add_console set_heap] in *.
      rewrite lookup_insert_eq in Ha. injection Ha as <-.
      exists h, u, p. by rewrite lookup_app_r, Nat.sub_diag by lia.
    + by rewrite (get_instance_bad_arguments _ _ _ Hi Hb).
Qed.

Section Reach.

Variable repr : value -> string.
Variable timestamp : Type.
Variable clock : nat -> timestamp.
Variable elapsed : timestamp -> timestamp -> string.

Lemma perform_module_loaded (d : demo) (s : Session) :
  module_loaded (s_world s) ->
  module_loaded (s_world (snd (perform repr timestamp clock elapsed d s))).
Proof.
  intros Hs.
  destruct (session_free d) eqn:Hfree.
  { destruct (perform_session_free repr timestamp clock elapsed d Hfree)
      as (r & out & H).
    rewrite H. exact Hs. }
  destruct d as [v|brand|name|a b|name salary ssn|name subject|width height|
                 |name breed tricks|requests|celsius
                 |brand capacity fuel_type cs|name employees cs|name role
                 |method|args| |name|radius assignments|statements
                 |factor value|args|age message|query message|start
                 |args kwargs sql];
    try discriminate.
  - (* Classic *)
    cbn [perform]. unfold bindS, in_world.
    destruct v as [name marks| |messages|c|f|args kwargs|p|age|start stop step];
      try discriminate.
    + (* UsingCls *)
      cbn [run]. unfold bind. rewrite (main_using_cls_stops _ Hs).
      cbn [snd set_world s_world].
      exact (module_loaded_more_heap _ _ (module_loaded_add_console _ _ Hs)).
    + (* the Logger *)
      rewrite run_logger. cbn [snd set_world s_world retS]. exact Hs.
    + (* the singleton *)
      cbn [run]. unfold bind.
      pose proof (get_instance_module_loaded args kwargs _ Hs) as H.
      destruct (get_instance args kwargs (s_world s)) as [[a|e] w'];
        exact H.
  - (* ClassVariables *) exact Hs.
  - (* ClassMethods *)
    cbn [perform]. destruct (create_books _ _). exact Hs.
  - (* TimingDecorator *) exact Hs.
  - (* SingletonQuery *)
    cbn [perform]. unfold bindS, in_world.
    pose proof (get_instance_module_loaded args kwargs _ Hs) as H.
    rewrite <- (get_then_query_world args kwargs sql) in H.
    destruct ((self <- get_instance args kwargs ;;
               DatabaseConnection.query self sql) (s_world s))
      as [[a|e] w']; exact H.
Qed.

(** Every session of a run has the module of the file. *)
Lemma reachable_module_loaded (s : Session) :
  reachable repr timestamp clock elapsed s -> module_loaded (s_world s).
Proof.
  induction 1 as [files|d s _ IH].
  - split; [reflexivity|]. split; [reflexivity|].
    intros a Ha. vm_compute in Ha. discriminate.
  - by apply perform_module_loaded.
Qed.

(** ** The vignettes that only print *)

(** Section 2 of [main], on the module of the file: it prints its heading
    and raises, every time. *)
Lemma UsingCls_only_prints (s : Session) :
  module_loaded (s_world s) ->
  only_prints repr timestamp clock elapsed (Classic UsingCls) s
  /\ repeatable repr timestamp clock elapsed (Classic UsingCls) s.
Proof.
  intros Hs.
  assert (Hrun : forall s0,
             module_loaded (s_world s0) ->
             perform repr timestamp clock elapsed (Classic UsingCls) s0
             = (Raise (AttributeError "Counter" "get_count"),
                set_world
                  (set_heap (heap (s_world s0)
                             ++ [ICallableCounter 1 0 []; ICallableCounter 1 0 [];
                                 ICallableCounter 1 0 []])
                     (add_console [nl +:+ "2. Using cls"] (s_world s0))) s0)).
  { intros s0 H0. cbn [perform run]. unfold bindS, in_world, bind.
    by rewrite (main_using_cls_stops _ H0). }
  unfold only_prints, repeatable. rewrite (Hrun s Hs). cbn [snd].
  rewrite Hrun
    by exact (module_loaded_more_heap _ _ (module_loaded_add_console _ _ Hs)).
  split; [split|split].
  - unfold shared_state. cbn [set_world s_world s_bank_name s_total_books].
    rewrite (cached_more_heap _ (add_console _ (s_world s)) Hs).
    reflexivity.
  - eexists. reflexivity.
  - reflexivity.
  - rewrite !(printed_app _ _ [nl +:+ "2. Using cls"]); reflexivity.
Qed.

(** A call of the decorated class that cannot bind its arguments changes
    nothing: it raises while the cache is empty and returns the cached
    instance afterwards. *)
Lemma unbound_Singleton_only_prints (args : list value)
    (kwargs : gmap string value) (s : Session) :
  bind_arguments ["host"; "user"; "password"] args kwargs = None ->
  only_prints repr timestamp clock elapsed (Classic (Singleton args kwargs)) s
  /\ repeatable repr timestamp clock elapsed (Classic (Singleton args kwargs)) s.
Proof.
  intros Hb.
  assert (Hrun : exists r,
             perform repr timestamp clock elapsed
               (Classic (Singleton args kwargs)) s = (r, s)).
  { cbn [perform run]. unfold bindS, in_world, bind.
    destruct (instances (s_world s) !! cls) as [a|] eqn:Hi.
    - rewrite (get_instance_cached _ _ _ _ Hi).
      eexists. destruct s. reflexivity.
    - rewrite (get_instance_bad_arguments _ _ _ Hi Hb).
      eexists. destruct s. reflexivity. }
  destruct Hrun as (r & Hrun).
  unfold only_prints, repeatable. rewrite !Hrun. cbn [snd].
  split; [split|split]; try reflexivity.
  exists []. by rewrite app_nil_r.
Qed.

Lemma unbound_SingletonQuery_only_prints (args : list value)
    (kwargs : gmap string value) (sql : value) (s : Session) :
  bind_arguments ["host"; "user"; "password"] args kwargs = None ->
  only_prints repr timestamp clock elapsed (SingletonQuery args kwargs sql) s
  /\ repeatable repr timestamp clock elapsed (SingletonQuery args kwargs sql) s.
Proof.
  intros Hb.
  assert (Hrun : exists r,
             perform repr timestamp clock elapsed
               (SingletonQuery args kwargs sql) s = (r, s)).
  { cbn [perform]. unfold bindS, in_world, bind.
    destruct (instances (s_world s) !! cls) as [a|] eqn:Hi.
    - rewrite (get_instance_cached _ _ _ _ Hi).
      pose proof (query_world a sql (s_world s)) as Hq.
      destruct (DatabaseConnection.query a sql (s_world s)) as [[r|e] w'];
        cbn [snd] in Hq; subst w'; eexists; destruct s; reflexivity.
    - rewrite (get_instance_bad_arguments _ _ _ Hi Hb).
      eexists. destruct s. reflexivity. }
  destruct Hrun as (r & Hrun).
  unfold only_prints, repeatable. rewrite !Hrun. cbn [snd].
  split; [split|split]; try reflexivity.
  exists []. by rewrite app_nil_r.
Qed.

End Reach.

(** ** Books and the class variable *)

Lemma create_book_fails (r : book_request) (n : Z) :
  raises (fst (create_book r n)) = book_fails r
  /\ snd (create_book r n) = n + if book_fails r then 0 else 1.
Proof.
  unfold book_fails.
  destruct r as [t a|t|str]; [by split | by split |].
  cbn [create_book]. unfold Book.from_string.
  destruct (split bar str) as [|x [|y [|z l]]];
    unfold Book.__init__, Book.increment_book_count;
    cbn [fst snd raises]; split; (reflexivity || lia).
Qed.

Lemma create_books_total (rs : list book_request) (n : Z) :
  snd (create_books rs n) = n + Z.of_nat (created (fst (create_books rs n)))
  /\ (forallb book_fails rs = true -> created (fst (create_books rs n)) = O)
  /\ (forallb book_fails rs = false ->
      (0 < created (fst (create_books rs n)))%nat).
Proof.
  revert n. induction rs as [|r rs IH]; intros n.
  - cbn [create_books fst snd forallb]. unfold created. cbn.
    split; [lia|]. split; [reflexivity | discriminate].
  - cbn [create_books forallb].
    destruct (create_book_fails r n) as [Hr Hn].
    destruct (create_book r n) as [o n1]. cbn [fst snd] in Hr, Hn.
    destruct (IH n1) as (Ht & Hall & Hsome).
    destruct (create_books rs n1) as [os n2]. cbn [fst snd] in *.
    unfold created in *. rewrite filter_cons.
    rewrite Hr. destruct (book_fails r) eqn:Hb; case_decide as Hd;
      try congruence; cbn [length andb].
    + split; [lia|]. split; [exact Hall | exact Hsome].
    + split; [lia|]. split; [discriminate | lia].
Qed.

Section Books.

Variable repr : value -> string.
Variable timestamp : Type.
Variable clock : nat -> timestamp.
Variable elapsed : timestamp -> timestamp -> string.

(** Requests that all fail leave [total_books] as it is. *)
Lemma failing_requests_only_print (requests : list book_request)
    (s : Session) :
  forallb book_fails requests = true ->
  only_prints repr timestamp clock elapsed (ClassMethods requests) s
  /\ repeatable repr timestamp clock elapsed (ClassMethods requests) s.
Proof.
  intros Hall.
  assert (Hrun : forall s0,
             perform repr timestamp clock elapsed (ClassMethods requests) s0
             = (Return (APair (AInt 0) (AInt (s_total_books s0))), s0)).
  { intros s0. cbn [perform].
    destruct (create_books_total requests (s_total_books s0))
      as (Ht & H0 & _).
    specialize (H0 Hall).
    destruct (create_books requests (s_total_books s0)) as [books n].
    cbn [fst snd] in *. rewrite H0 in *.
    replace n with (s_total_books s0) by lia.
    destruct s0. reflexivity. }
  unfold only_prints, repeatable. rewrite !Hrun. cbn [snd].
  split; [split|split]; try reflexivity.
  exists []. by rewrite app_nil_r.
Qed.

End Books.

(** ** The vignettes that do more than print *)

Lemma length_append (s t : string) :
  String.length (s +:+ t) = (String.length s + String.length t)%nat.
Proof. induction s as [|a s IH]; cbn; [reflexivity | by rewrite IH]. Qed.

Lemma append_cancel_r (s t u : string) : s +:+ u = t +:+ u -> s = t.
Proof.
  revert t. induction s as [|a s IH]; intros [|b t] H.
  - reflexivity.
  - apply (f_equal String.length) in H.
    rewrite (length_append (String b t) u) in H. cbn in H. lia.
  - apply (f_equal String.length) in H.
    rewrite (length_append (String a s) u) in H. cbn in H. lia.
  - cbn in H. injection H as -> H. by rewrite (IH t H).
Qed.

Lemma shared_state_inv (s s' : Session) :
  shared_state s' = shared_state s ->
  cached (s_world s') = cached (s_world s)
  /\ fs (s_world s') = fs (s_world s)
  /\ s_bank_name s' = s_bank_name s
  /\ s_total_books s' = s_total_books s.
Proof. unfold shared_state. intros H. injection H. auto. Qed.

Section Violations.

Variable repr : value -> string.
Variable timestamp : Type.
Variable clock : nat -> timestamp.
Variable elapsed : timestamp -> timestamp -> string.

(** The Logger creates [log.txt]. *)
Lemma Logger_writes_a_file (messages : list string) :
  ~ only_prints repr timestamp clock elapsed
      (Classic (ConstructorsAndDestructors messages)) (session_start ∅).
Proof.
  unfold only_prints. cbn [perform]. unfold bindS, in_world.
  rewrite run_logger. unfold retS. cbn [snd].
  intros [H _]. apply shared_state_inv in H as (_ & H & _).
  cbn [set_world s_world session_start set_fs add_console fs] in H.
  apply (f_equal (fun m => m !! "log.txt")) in H.
  rewrite lookup_insert_eq, lookup_empty in H. discriminate.
Qed.

(** A call of the decorated class whose arguments bind fills the cache. *)
Lemma Singleton_fills_the_cache (args : list value)
    (kwargs : gmap string value) (l : list value) :
  bind_arguments ["host"; "user"; "password"] args kwargs = Some l ->
  ~ only_prints repr timestamp clock elapsed
      (Classic (Singleton args kwargs)) (session_start ∅).
Proof.
  intros Hb. destruct (bind_arguments_three _ _ _ Hb) as (h & u & p & ->).
  unfold only_prints. cbn [perform run]. unfold bindS, in_world, bind.
  rewrite (get_instance_first _ _ h u p) by (exact Hb || reflexivity).
  unfold retS, ret. cbn [snd].
  intros [H _]. apply shared_state_inv in H as (H & _). revert H.
  unfold cached, first_call_world, set_instances.
  cbn [set_world s_world session_start instances heap add_console set_heap
       set_fs].
  rewrite lookup_insert_eq.
  vm_compute. discriminate.
Qed.

Lemma SingletonQuery_fills_the_cache (args : list value)
    (kwargs : gmap string value) (sql : value) (l : list value) :
  bind_arguments ["host"; "user"; "password"] args kwargs = Some l ->
  ~ only_prints repr timestamp clock elapsed
      (SingletonQuery args kwargs sql) (session_start ∅).
Proof.
  intros Hb. destruct (bind_arguments_three _ _ _ Hb) as (h & u & p & ->).
  unfold only_prints. cbn [perform]. unfold bindS, in_world.
  pose proof (get_then_query_world args kwargs sql
                (s_world (session_start ∅))) as Hw.
  rewrite (get_instance_first _ _ h u p) in Hw by (exact Hb || reflexivity).
  destruct ((self <- get_instance args kwargs ;;
             DatabaseConnection.query self sql) (s_world (session_start ∅)))
    as [[r|e] w']; cbn [snd] in Hw; subst w'; unfold retS; cbn [snd];
    intros [H _]; apply shared_state_inv in H as (H & _); revert H;
    unfold cached, first_call_world, set_instances;
    cbn [set_world s_world session_start instances heap add_console set_heap
         set_fs];
    rewrite lookup_insert_eq; vm_compute; discriminate.
Qed.

(** [Bank.change_bank_name] changes the class variable. *)
Lemma Bank_name_changes (name : value) :
  exists s,
    reachable repr timestamp clock elapsed s
    /\ ~ only_prints repr timestamp clock elapsed (ClassVariables name) s.
Proof.
  destruct (decide (name = VStr "National Bank")) as [->|Hne].
  - exists (snd (perform repr timestamp clock elapsed (ClassVariables VNone)
                   (session_start ∅))).
    split; [apply reachable_perform, reachable_start|].
    intros [H _]. apply shared_state_inv in H as (_ & _ & H & _).
    cbn in H. discriminate.
  - exists (session_start ∅). split; [apply reachable_start|].
    intros [H _]. apply shared_state_inv in H as (_ & _ & H & _).
    cbn in H. congruence.
Qed.

(** A request that creates a book raises [total_books]. *)
Lemma total_books_changes (requests : list book_request) :
  forallb book_fails requests = false ->
  ~ only_prints repr timestamp clock elapsed (ClassMethods requests)
      (session_start ∅).
Proof.
  intros Hsome [H _]. apply shared_state_inv in H as (_ & _ & _ & H).
  cbn [perform] in H.
  destruct (create_books_total requests (s_total_books (session_start ∅)))
    as (Ht & _ & Hpos).
  specialize (Hpos Hsome).
  destruct (create_books requests (s_total_books (session_start ∅)))
    as [books n].
  cbn [fst snd s_total_books session_start] in *. lia.
Qed.

End Violations.

(** The timing decorator prints what the clock says. *)
Lemma timing_depends_on_the_clock (repr : value -> string)
    (timestamp : Type) (elapsed : timestamp -> timestamp -> string)
    (t0 t1 t2 t3 : timestamp) :
  elapsed t0 t1 <> elapsed t2 t3 ->
  ~ repeatable repr timestamp
      (fun n => match n with
                | O => t0
                | 1%nat => t1
                | 2%nat => t2
                | _ => t3
                end)
      elapsed TimingDecorator (session_start ∅).
Proof.
  intros Hne. unfold repeatable.
  cbn [perform]. unfold timed_slow_function, bindS, time_time, slow_function,
    printS, in_world, print, retS.
  cbn [s_reads s_world session_start set_world].
  intros [_ H]. unfold printed in H.
  cbn [console add_console set_fs s_world] in H.
  cbn in H. injection H as H.
  apply append_cancel_r in H. contradiction.
Qed.

(** ** Determinism and effects of the vignettes *)



